(** * matrix-media-repo: resolver, federated fetcher, datastore registry
      and thumbnailer

    A shallow embedding of
    - [matrix.GetServerApiUrl] and [matrix.FederatedGet],
    - [storage.GetOrCreateDatastoreOfType],
    - [thumbnail_service.GenerateThumbnail] and [thumbnailFrame],
    with the properties their specification states about them.

    Go values are modelled as they are in the code: a [string] is a
    [String.string], an [int] is a [Z], a multiple return [(a, b, err)] is a
    tuple whose error component is an [option] ([None] is Go's [nil]), or a
    sum where only one of value and error is ever set; a nilable pointer is
    an [option].  Logging calls have no effect on any
    returned value and are left out. *)

From Stdlib Require Import ZArith String Ascii List Bool Lia DecimalString.
From stdpp Require Import gmap strings.

Local Open Scope string_scope.
Local Open Scope Z_scope.

(** ** Go string primitives used by the code *)

Module GoString.

(** [len(s)] *)
Definition len (s : string) : Z := Z.of_nat (String.length s).

(** [s[i:j]] for in-range [0 <= i <= j <= len(s)]. *)
Definition slice (s : string) (i j : Z) : string :=
  String.substring (Z.to_nat i) (Z.to_nat (j - i)) s.

(** [s[i:]] *)
Definition slice_from (s : string) (i : Z) : string := slice s i (len s).

(** [bytealg.IndexByteString]: index of the first [c] in [s], or -1. *)
Fixpoint IndexByteString (s : string) (c : ascii) : Z :=
  match s with
  | EmptyString => -1
  | String a s' =>
      if Ascii.eqb a c then 0
      else let r := IndexByteString s' c in
           if r <? 0 then -1 else r + 1
  end.

(** [net.last]: index of the last [c] in [s], or -1. *)
Fixpoint last (s : string) (c : ascii) : Z :=
  match s with
  | EmptyString => -1
  | String a s' =>
      let r := last s' c in
      if 0 <=? r then r + 1
      else if Ascii.eqb a c then 0 else -1
  end.

(** [strings.HasSuffix] *)
Definition HasSuffix (s suffix : string) : bool :=
  (len suffix <=? len s)
  && String.eqb (slice_from s (len s - len suffix)) suffix.

(** [strings.HasPrefix] *)
Definition HasPrefix (s pre : string) : bool :=
  (len pre <=? len s) && String.eqb (slice s 0 (len pre)) pre.

(** [fmt.Sprintf("%d", n)] for an unsigned [n]. *)
Definition itoa (n : N) : string := NilEmpty.string_of_uint (N.to_uint n).

End GoString.

(** ** [net.SplitHostPort] and [net.AddrError] (Go standard library) *)

Module GoNet.
Import GoString.

Record AddrError := mkAddrError { Err : string; Addr : string }.

(** The [Error] method of [AddrError]. *)
Definition Error (e : AddrError) : string :=
  if String.eqb (Addr e) "" then Err e
  else "address " ++ Addr e ++ ": " ++ Err e.

Definition missingPort : string := "missing port in address".
Definition tooManyColons : string := "too many colons in address".

Definition addrErr (addr why : string) : string * string * option AddrError :=
  ("", "", Some (mkAddrError why addr)).

Definition byte_at (s : string) (i : Z) : option ascii :=
  String.get (Z.to_nat i) s.

Definition SplitHostPort (hostport : string)
  : string * string * option AddrError :=
  let i := last hostport ":" in
  if i <? 0 then addrErr hostport missingPort
  else
    let bracketed :=
      match byte_at hostport 0 with
      | Some c => Ascii.eqb c "["
      | None => false
      end in
    let after (host : string) (j k : Z) :=
      if 0 <=? IndexByteString (slice_from hostport j) "[" then
        addrErr hostport "unexpected '[' in address"
      else if 0 <=? IndexByteString (slice_from hostport k) "]" then
        addrErr hostport "unexpected ']' in address"
      else (host, slice_from hostport (i + 1), None) in
    if bracketed then
      let e := IndexByteString hostport "]" in
      if e <? 0 then addrErr hostport "missing ']' in address"
      else if e + 1 =? len hostport then addrErr hostport missingPort
      else if e + 1 =? i then after (slice hostport 1 e) 1 (e + 1)
      else
        match byte_at hostport (e + 1) with
        | Some c =>
            if Ascii.eqb c ":" then addrErr hostport tooManyColons
            else addrErr hostport missingPort
        | None => addrErr hostport missingPort
        end
    else
      let host := slice hostport 0 i in
      if 0 <=? IndexByteString host ":" then addrErr hostport tooManyColons
      else after host 0 0.

End GoNet.

(** ** The resolver: [matrix.GetServerApiUrl] *)

Module Resolver.
Import GoString GoNet.

(** One record of a [net.LookupSRV] answer: [Target] and [Port]. *)
Record SRV := mkSRV { Target : string; Port : N }.

(** What the function consults outside the process.  None of this is code
    of the repository: [is_IP] is [is.IP] of github.com/alioygur/is,
    [http_Get] is [http.Get] followed by [ioutil.ReadAll] on the body,
    [json_ServerAddr] is [json.Unmarshal] into the well-known response
    followed by reading its [ServerAddr] field, [net_LookupSRV] is
    [net.LookupSRV "matrix" "tcp"] (its error is ignored by the code). *)
Record World := mkWorld {
  is_IP : string -> bool;
  (** [None]: [http.Get] failed; [Some (status, body)], where [body] is
      [None] when reading it failed. *)
  http_Get : string -> option (Z * option string);
  (** [None]: the body is not the expected JSON. *)
  json_ServerAddr : string -> option string;
  net_LookupSRV : string -> list SRV
}.

Definition StatusOK : Z := 200.

(** *** The go-cache instance [cache.New(1*time.Hour, 2*time.Hour)]

    Items are kept with their expiration instant in nanoseconds.  The
    janitor only removes items that [Get] already reports as missing. *)

Definition Hour : Z := 3600 * 1000000000.
Definition defaultExpiration : Z := 1 * Hour.

(** [c.Get(k)] at instant [now]. *)
Definition Cache_Get (c : gmap string (string * Z)) (now : Z) (k : string)
  : option string :=
  match c !! k with
  | None => None
  | Some (v, e) =>
      if 0 <? e then (if e <? now then None else Some v) else Some v
  end.

(** [c.Set(k, v, cache.DefaultExpiration)] at instant [now]. *)
Definition Cache_Set (c : gmap string (string * Z)) (now : Z)
    (k v : string) : gmap string (string * Z) :=
  let d := defaultExpiration in
  let e := if 0 <? d then now + d else 0 in
  <[k := (v, e)]> c.

(** The function's Go result [(string, string, error)], or a run-time
    panic. *)
Inductive result :=
| Return (url host : string) (err : option AddrError)
| Panics.

(** The block the code runs on [hostname] and again on [wk.ServerAddr]:
    [SplitHostPort], retried with [":8448"] appended when the error ends
    in "missing port in address".  Yields [(h, p, err, defPort)]. *)
Definition splitDefaultPort (hostname : string)
  : string * string * option AddrError * bool :=
  let '(h, p, err) := SplitHostPort hostname in
  let defPort := false in
  match err with
  | Some e =>
      if HasSuffix (Error e) "missing port in address" then
        let '(h, p, err) := SplitHostPort (hostname ++ ":8448") in
        (h, p, err, true)
      else (h, p, err, defPort)
  | None => (h, p, err, defPort)
  end.

(** [fmt.Sprintf("https://%s:%s", h, p)] *)
Definition urlOf (h p : string) : string := "https://" ++ h ++ ":" ++ p.

(** The SRV step shared by 3c and 4: first record, one trailing period
    trimmed.  [realAddr[len(realAddr)-1:]] panics on an empty target. *)
Definition srvUrl (a : SRV) : option string :=
  let realAddr := Target a in
  if len realAddr =? 0 then None
  else
    let realAddr :=
      if String.eqb (slice_from realAddr (len realAddr - 1)) "."
      then slice realAddr 0 (len realAddr - 1)
      else realAddr in
    Some ("https://" ++ realAddr ++ ":" ++ itoa (Port a)).

Definition GetServerApiUrl (W : World) (now : Z)
    (cache : gmap string (string * Z)) (hostname : string)
  : result * gmap string (string * Z) :=
  (* Check to see if we've cached this hostname at all *)
  match Cache_Get cache now hostname with
  | Some url => (Return url hostname None, cache)
  | None =>
    let '(h, p, err, defPort) := splitDefaultPort hostname in
    match err with
    | Some e => (Return "" "" (Some e), cache)
    | None =>
      (* Step 1 *)
      if is_IP W h then
        let url := urlOf h p in
        (Return url hostname None, Cache_Set cache now hostname url)
      (* Step 2 *)
      else if negb defPort then
        let url := urlOf h p in
        (Return url h None, Cache_Set cache now hostname url)
      else
        (* Steps 4 and 5, reached when step 3 falls through *)
        let step4 :=
          match net_LookupSRV W hostname with
          | a :: _ =>
              match srvUrl a with
              | None => (Panics, cache)
              | Some url =>
                  (Return url h None, Cache_Set cache now hostname url)
              end
          | [] =>
              let url := urlOf h p in
              (Return url h None, Cache_Set cache now hostname url)
          end in
        (* Step 3 *)
        match http_Get W ("https://" ++ h ++ "/.well-known/matrix/server") with
        | Some (status, Some c) =>
          if status =? StatusOK then
            match json_ServerAddr W c with
            | Some ServerAddr =>
              if negb (String.eqb ServerAddr "") then
                let '(wkHost, wkPort, err4, wkDefPort) :=
                  splitDefaultPort ServerAddr in
                match err4 with
                | None =>
                  (* Step 3a *)
                  if is_IP W wkHost then
                    let url := urlOf wkHost wkPort in
                    (Return url ServerAddr None,
                     Cache_Set cache now hostname url)
                  (* Step 3b *)
                  else if negb wkDefPort then
                    let url := urlOf wkHost wkPort in
                    (Return url wkHost None,
                     Cache_Set cache now hostname url)
                  else
                    (* Step 3c *)
                    match net_LookupSRV W wkHost with
                    | a :: _ =>
                        match srvUrl a with
                        | None => (Panics, cache)
                        | Some url =>
                            (Return url wkHost None,
                             Cache_Set cache now hostname url)
                        end
                    | [] =>
                        (* Step 3d *)
                        let url := urlOf wkHost wkPort in
                        (Return url wkHost None,
                         Cache_Set cache now hostname url)
                    end
                | Some _ => step4
                end
              else step4
            | None => step4
            end
          else step4
        | _ => step4
        end
    end
  end.

(** The host part the function works with for a given name: the [h] of
    [splitDefaultPort]. *)
Definition hostOf (s : string) : string :=
  let '(h, _, _, _) := splitDefaultPort s in h.


(** What a call that misses the cache may yield.  Without error: the url
    is stored under the input name, it is an https url, and the host
    returned is the input, its host part, or comes from the delegation.
    Otherwise the cache is left as it was. *)
Definition miss_post (W : World) (now : Z) (cache : gmap string (string * Z))
    (hostname : string) (out : result * gmap string (string * Z)) : Prop :=
  match out with
  | (Return url sni None, cache') =>
      cache' = Cache_Set cache now hostname url
      /\ HasPrefix url "https://" = true
      /\ (sni = hostname \/ sni = hostOf hostname
          \/ exists c addr, json_ServerAddr W c = Some addr /\ addr <> ""
               /\ (sni = addr \/ sni = hostOf addr))
  | (_, cache') => cache' = cache
  end.


(** A string without colon and square brackets, such as a host name, an
    IPv4 literal or a port number. *)
Definition plain (s : string) : bool :=
  (IndexByteString s ":" <? 0) && (IndexByteString s "[" <? 0)
  && (IndexByteString s "]" <? 0).

(** A world for the examples: no well-known document and no SRV record
    anywhere; a name is taken for an IP literal when it consists of
    digits and periods only. *)
Definition digits_and_dots (s : string) : bool :=
  negb (String.eqb s "")
  && forallb (fun a => Ascii.eqb a "." || ((48 <=? nat_of_ascii a)%nat
                                            && (nat_of_ascii a <=? 57)%nat))
             (list_ascii_of_string s).

Definition quietWorld : World :=
  mkWorld digits_and_dots (fun _ => None) (fun _ => None) (fun _ => []).

(** A world in which every name delegates to [actual.test:443]. *)
Definition delegatingWorld : World :=
  mkWorld digits_and_dots
    (fun _ => Some (200, Some "m.server: actual.test:443"))
    (fun _ => Some "actual.test:443") (fun _ => []).

(** A world without well-known documents in which [matrix.org] has one SRV
    record. *)
Definition srvWorld : World :=
  mkWorld digits_and_dots (fun _ => None) (fun _ => None)
    (fun name =>
       if String.eqb name "matrix.org"
       then [mkSRV "matrix-federation.matrix.org." 8448] else []).

(** A world in which every name delegates to [hosted.test], without port,
    and only the names other than [hosted.test] have an SRV record. *)
Definition portlessDelegation : World :=
  mkWorld digits_and_dots
    (fun _ => Some (200, Some "m.server: hosted.test"))
    (fun _ => Some "hosted.test")
    (fun name =>
       if String.eqb name "hosted.test" then []
       else [mkSRV "elsewhere.test." 8448]).

(** A world whose well-known answers are 404 pages, with the SRV records
    of [srvWorld]. *)
Definition notFoundWorld : World :=
  mkWorld digits_and_dots
    (fun _ => Some (404, Some "not found"))
    (fun _ => Some "actual.test:443")
    (net_LookupSRV srvWorld).

(** A world that takes [::1] for an IP literal, besides the names of
    digits and periods. *)
Definition ipv6World : World :=
  mkWorld (fun s => String.eqb s "::1" || digits_and_dots s)
    (fun _ => None) (fun _ => None) (fun _ => []).

(** A world whose SRV answers carry an empty target. *)
Definition emptyTargetWorld : World :=
  mkWorld digits_and_dots (fun _ => None) (fun _ => None)
    (fun _ => [mkSRV "" 8448]).

(** [W] with every well-known request failing. *)
Definition withoutWellKnown (W : World) : World :=
  mkWorld (is_IP W) (fun _ => None) (json_ServerAddr W) (net_LookupSRV W).

(** The cache after a first call for [example.com:8449] at instant 0,
    and after a first call for [delegated.test]. *)
Definition filledCache : gmap string (string * Z) :=
  snd (GetServerApiUrl quietWorld 0 ∅ "example.com:8449").

Definition delegatedCache : gmap string (string * Z) :=
  snd (GetServerApiUrl delegatingWorld 0 ∅ "delegated.test").

End Resolver.

(** ** The federated fetcher: [matrix.FederatedGet] *)

Module Fetcher.

Definition error := string.
Definition RawConn := nat.

(** The two fields of [tls.Config] the code sets. *)
Record TlsConfig := mkTlsConfig {
  ServerName : string;
  InsecureSkipVerify : bool
}.

(** [tls.Client(rawconn, config)] *)
Record TlsConn := tls_Client { raw : RawConn; config : TlsConfig }.

(** A parsed [url.URL]: the text, its scheme and the [host:port] a
    transport dials for it. *)
Record Url := mkUrl { Text : string; Scheme : string; HostPort : string }.

Record Request := mkRequest {
  Method : string;
  URL : Url;
  Host : string;
  Header : list (string * string)
}.

Record Response := mkResponse { StatusCode : Z; Body : string }.

(** The peer and the network between.  [url_Parse] is the URL parsing of
    [http.NewRequest].  [handshake c n cfg] is the outcome of the [n]-th
    [Handshake] attempted over raw connection [c] ([None]: it succeeded).
    [round_trip] sends a request over an established TLS connection,
    [plain_round_trip] is what the transport does for a URL that is not
    https, where it does not call [DialTLS]. *)
Record Network := mkNetwork {
  url_Parse : string -> Url + error;
  dial : string -> string -> RawConn + error;
  handshake : RawConn -> nat -> TlsConfig -> option error;
  round_trip : TlsConn -> Request -> Response + error;
  plain_round_trip : Request -> Response + error
}.

(** The [DialTLS] closure of the transport.  Besides the Go result
    [(net.Conn, error)] it yields the log of the handshakes attempted. *)
Definition DialTLS (N : Network) (realHost : string) (network addr : string)
  : (option TlsConn * option error) * list TlsConfig :=
  match dial N network addr with
  | inr err => ((None, Some err), [])
  | inl rawconn =>
      let cfg := mkTlsConfig realHost true in
      let conn := tls_Client rawconn cfg in
      match handshake N rawconn 0%nat cfg with
      | Some err =>
          (* fallback to not providing a ServerName *)
          let cfg' := mkTlsConfig "" true in
          let conn' := tls_Client rawconn cfg' in
          match handshake N rawconn 1%nat cfg' with
          | Some err' => ((None, Some err'), [cfg; cfg'])
          | None => ((None, Some err), [cfg; cfg'])
          end
      | None => ((Some conn, None), [cfg])
      end
  end.

(** [transport.RoundTrip(req)] of a transport that only sets [DialTLS]:
    an https URL is dialled through [DialTLS], and the request is sent
    over the connection it returns. *)
Definition RoundTrip (N : Network) (realHost : string) (req : Request)
  : (option Response * option error) * list TlsConfig :=
  if String.eqb (Scheme (URL req)) "https" then
    match DialTLS N realHost "tcp" (HostPort (URL req)) with
    | ((Some conn, _), log) =>
        match round_trip N conn req with
        | inl resp => ((Some resp, None), log)
        | inr err => ((None, Some err), log)
        end
    | ((None, err), log) => ((None, err), log)
    end
  else
    match plain_round_trip N req with
    | inl resp => ((Some resp, None), [])
    | inr err => ((None, Some err), [])
    end.

Definition FederatedGet (N : Network) (url realHost : string)
  : (option Response * option error) * list TlsConfig :=
  match url_Parse N url with
  | inr err => ((None, Some err), [])
  | inl u =>
      let req :=
        mkRequest "GET" u realHost
          [("Host", realHost); ("User-Agent", "matrix-media-repo")] in
      match RoundTrip N realHost req with
      | ((_, Some err), log) => ((None, Some err), log)
      | ((resp, None), log) => ((resp, None), log)
      end
  end.

(** A peer that refuses every handshake carrying a server name and
    accepts one without, and then answers 200. *)
Definition pickyPeer : Network :=
  mkNetwork
    (fun url => inl (mkUrl url "https" "peer.test:8448"))
    (fun _ _ => inl 7%nat)
    (fun _ _ cfg =>
       if String.eqb (ServerName cfg) "" then None
       else Some "tls: unrecognized name")
    (fun _ _ => inl (mkResponse 200 "media"))
    (fun _ => inr "plain http not served").

(** A peer that refuses every handshake, with a different error for the
    one without a server name. *)
Definition deafPeer : Network :=
  mkNetwork
    (fun url => inl (mkUrl url "https" "peer.test:8448"))
    (fun _ _ => inl 7%nat)
    (fun _ _ cfg =>
       if String.eqb (ServerName cfg) "" then Some "tls: handshake failure"
       else Some "tls: unrecognized name")
    (fun _ _ => inl (mkResponse 200 "media"))
    (fun _ => inr "plain http not served").

(** A peer that accepts the first handshake and answers 200; and a network
    on which no connection can be made. *)
Definition friendlyPeer : Network :=
  mkNetwork
    (fun url => inl (mkUrl url "https" "peer.test:8448"))
    (fun _ _ => inl 7%nat)
    (fun _ _ _ => None)
    (fun _ _ => inl (mkResponse 200 "media"))
    (fun _ => inr "plain http not served").

Definition noRoute : Network :=
  mkNetwork
    (fun url => inl (mkUrl url "https" "peer.test:8448"))
    (fun _ _ => inr "dial tcp: no route to host")
    (fun _ _ _ => None)
    (fun _ _ => inl (mkResponse 200 "media"))
    (fun _ => inr "plain http not served").

End Fetcher.

(** ** Records of package [types] *)

Module types.

Record Datastore := mkDatastore {
  DatastoreId : string;
  Type_ : string;
  Uri : string
}.

(** The fields of [Media] the thumbnailer reads. *)
Record Media := mkMedia {
  ContentType : string;
  Location : string;
  SizeBytes : Z
}.

End types.

(** ** The datastore registry: [storage.GetOrCreateDatastoreOfType] *)

Module Storage.
Import types.

(** Go's [error] values that reach this function. *)
Inductive error :=
| ErrNoRows                       (* sql.ErrNoRows *)
| ErrUniqueViolation              (* the uniqueness constraint on uri *)
| ErrOther (msg : string).

Definition is_ErrNoRows (e : error) : bool :=
  match e with ErrNoRows => true | _ => false end.

(** The two operations of [stores.MediaStore] the function calls, over a
    database state [Db]. *)
Class MediaStore (Db : Type) := {
  GetDatastoreByUri : Db -> string -> option Datastore * option error;
  InsertDatastore : Db -> Datastore -> option error * Db
}.

(** Modelled from the spec: [util.GenerateRandomString], which is not
    among the sources.  The identifier has the requested number of
    characters, each drawn from A-Z, a-z, 0-9 by one byte of the entropy
    source; the call fails when the source cannot supply the bytes. *)
Definition alphabet : string :=
  "ABCDEFGHIJKLMNOPQRSTUVWXYZabcdefghijklmnopqrstuvwxyz0123456789".

Definition alphabetChar (b : N) : ascii :=
  match String.get (N.to_nat (b mod 62)) alphabet with
  | Some a => a
  | None => "A"%char
  end.

Fixpoint randomChars (n : nat) (entropy : list N)
  : option (string * list N) :=
  match n with
  | O => Some ("", entropy)
  | S n' =>
      match entropy with
      | [] => None
      | b :: rest =>
          match randomChars n' rest with
          | Some (s, rest') => Some (String (alphabetChar b) s, rest')
          | None => None
          end
      end
  end.

Definition GenerateRandomString (entropy : list N) (n : Z)
  : (string * option error) * list N :=
  match randomChars (Z.to_nat n) entropy with
  | Some (s, rest) => ((s, None), rest)
  | None => (("", Some (ErrOther "entropy source failed")), entropy)
  end.

Section GetOrCreate.
Context {Db : Type} `{MediaStore Db}.

(** The function, with what other callers do to the database between
    its lookup and its insert made explicit as [others]. *)
Definition GetOrCreateDatastoreOfType_among (others : Db -> Db)
    (db : Db) (entropy : list N) (dsType dsUri : string)
  : (option Datastore * option error) * Db * list N :=
  let '(datastore, err) := GetDatastoreByUri db dsUri in
  match err with
  | Some e =>
      if is_ErrNoRows e then
        let '((id, err2), entropy') := GenerateRandomString entropy 32 in
        match err2 with
        | Some e2 => ((None, Some e2), db, entropy')
        | None =>
            let datastore := mkDatastore id dsType dsUri in
            let '(err2, db') := InsertDatastore (others db) datastore in
            match err2 with
            | Some e2 => ((None, Some e2), db', entropy')
            | None => ((Some datastore, None), db', entropy')
            end
        end
      else ((datastore, None), db, entropy)
  | None => ((datastore, None), db, entropy)
  end.

(** The function when no other caller interferes. *)
Definition GetOrCreateDatastoreOfType :=
  GetOrCreateDatastoreOfType_among (fun db => db).

(** [n] calls in sequence with the same arguments; the results in
    call order. *)
Fixpoint repeated (n : nat) (db : Db) (entropy : list N)
    (dsType dsUri : string) : list (option Datastore * option error) :=
  match n with
  | O => []
  | S n' =>
      let '(r, db', entropy') :=
        GetOrCreateDatastoreOfType db entropy dsType dsUri in
      r :: repeated n' db' entropy' dsType dsUri
  end.
(** The sibling of the function that is handed the media store and creates
    datastores of type [file]. *)
Definition getOrCreateDatastoreWithMediaService (db : Db) (entropy : list N)
    (basePath : string)
  : (option Datastore * option error) * Db * list N :=
  let '(datastore, err) := GetDatastoreByUri db basePath in
  match err with
  | Some e =>
      if is_ErrNoRows e then
        let '((id, err2), entropy') := GenerateRandomString entropy 32 in
        match err2 with
        | Some e2 => ((None, Some e2), db, entropy')
        | None =>
            let datastore := mkDatastore id "file" basePath in
            let '(err2, db') := InsertDatastore db datastore in
            match err2 with
            | Some e2 => ((None, Some e2), db', entropy')
            | None => ((Some datastore, None), db', entropy')
            end
        end
      else ((None, Some e), db, entropy)
  | None => ((datastore, None), db, entropy)
  end.
End GetOrCreate.

(** Modelled from the spec: the database behind [stores.MediaStore], which
    is not among the sources.  A table of datastore records on which the
    storage enforces uniqueness of [uri]: a lookup by uri answers the
    record or not-found, an insert answers ok or conflict.  When the
    database cannot be reached both operations fail with the driver's
    error and hand back no record. *)
Record Table := mkTable { rows : list Datastore; online : bool }.

Definition byUri (uri : string) (t : Table) : option Datastore :=
  List.find (fun d => String.eqb (Uri d) uri) (rows t).

Definition driverError : error := ErrOther "connection refused".

#[export] Instance TableStore : MediaStore Table := {
  GetDatastoreByUri t uri :=
    if online t then
      match byUri uri t with
      | Some d => (Some d, None)
      | None => (None, Some ErrNoRows)
      end
    else (None, Some driverError);
  InsertDatastore t d :=
    if online t then
      match byUri (Uri d) t with
      | Some _ => (Some ErrUniqueViolation, t)
      | None => (None, mkTable (rows t ++ [d]) (online t))
      end
    else (Some driverError, t)
}.

Definition emptyTable : Table := mkTable [] true.

(** A media store over the same table whose lookup is written the way
    [database/sql] code often is: it scans the row into a fresh record and
    returns that record together with the error of the scan, so that a
    failed lookup hands back an empty record and not nil. *)
Definition scanningStore : MediaStore Table := {|
  GetDatastoreByUri t uri :=
    if online t then
      match byUri uri t with
      | Some d => (Some d, None)
      | None => (Some (mkDatastore "" "" ""), Some ErrNoRows)
      end
    else (Some (mkDatastore "" "" ""), Some driverError);
  InsertDatastore t d :=
    if online t then
      match byUri (Uri d) t with
      | Some _ => (Some ErrUniqueViolation, t)
      | None => (None, mkTable (rows t ++ [d]) (online t))
      end
    else (Some driverError, t)
|}.

(** Another caller that creates the datastore for [/tmp/a] first. *)
Definition rival (t : Table) : Table :=
  snd (InsertDatastore t
         (mkDatastore "RIVALRIVALRIVALRIVALRIVALRIVAL00" "file" "/tmp/a")).

Definition someEntropy : list N := List.map N.of_nat (List.seq 0 40).

(** A table that already holds a datastore of type [s3] for [/tmp/a]. *)
Definition s3Table : Table :=
  mkTable [mkDatastore "S3S3S3S3S3S3S3S3S3S3S3S3S3S3S3S3" "s3" "/tmp/a"] true.

End Storage.

(** ** The thumbnailer: [thumbnail_service.GenerateThumbnail] *)

Module Thumbnailer.
Import types.

Definition error := string.

Record generatedThumbnail := mkThumb {
  ContentType : string;
  DiskLocation : string;
  SizeBytes : Z;
  Animated : bool
}.

(** A decoded image: [Bounds().Max] and the pixel data. *)
Record Image := mkImage { MaxX : Z; MaxY : Z; Pix : string }.

(** The persisted files: location and content. *)
Definition Files := list (string * string).

(** What the function calls outside its file.  [animatedTypes] is the
    package variable of that name.  [ratio_eq sh sw w h] is the
    comparison [float32(sh)/float32(sw) == float32(w)/float32(h)].
    [imaging_*], [os_Open], [gif_*] are the image and file libraries;
    [repalette old thumb] is [image.NewPaletted] on the bounds of [thumb]
    with the palette of [old], followed by [draw.Draw].  [PersistFile] is
    [storage.PersistFile] and [FileSize] is [util.FileSize]. *)
Record Env := mkEnv {
  animatedTypes : list string;
  ratio_eq : Z -> Z -> Z -> Z -> bool;
  imaging_Open : string -> Image + error;
  imaging_Fit : Image -> Z -> Z -> Image;
  imaging_Fill : Image -> Z -> Z -> Image;
  imaging_Encode_PNG : Image -> string + error;
  os_Open : string -> string + error;
  gif_DecodeAll : string -> list Image + error;
  repalette : Image -> Image -> Image;
  gif_EncodeAll : list Image -> string + error;
  PersistFile : Files -> string -> (string + error) * Files;
  FileSize : Files -> string -> Z + error
}.

(** Modelled from the spec: [util.ArrayContains], which is not among the
    sources: whether the string is in the set. *)
Definition ArrayContains (l : list string) (s : string) : bool :=
  existsb (String.eqb s) l.

Definition thumbnailFrame (E : Env) (src : Image) (method : string)
    (width height : Z) : Image + error :=
  if String.eqb method "scale" then
    inl (imaging_Fit E src width height)
  else if String.eqb method "crop" then
    inl (imaging_Fill E src width height)
  else inr ("unrecognized method: " ++ method).

(** The loop over [g.Image]: each frame is replaced by its thumbnail,
    the first error ends the function. *)
Fixpoint thumbnailFrames (E : Env) (frames : list Image) (method : string)
    (width height : Z) : list Image + error :=
  match frames with
  | [] => inl []
  | f :: rest =>
      match thumbnailFrame E f method width height with
      | inr err => inr err
      | inl frameThumb =>
          match thumbnailFrames E rest method width height with
          | inl rest' => inl (repalette E f frameThumb :: rest')
          | inr err => inr err
          end
      end
  end.

Definition GenerateThumbnail (E : Env) (fs : Files) (media : Media)
    (width height : Z) (method : string) (animated forceGeneration : bool)
  : (option generatedThumbnail * option error) * Files :=
  let animated :=
    if animated && negb (ArrayContains (animatedTypes E) (types.ContentType media))
    then false else animated in
  match imaging_Open E (Location media) with
  | inr err => ((None, Some err), fs)
  | inl src =>
    let srcWidth := MaxX src in
    let srcHeight := MaxY src in
    let method :=
      if ratio_eq E srcHeight srcWidth width height then "scale"
      else method in
    let small := (srcWidth <=? width) && (srcHeight <=? height) in
    if small && negb forceGeneration then
      (* Image is too small - don't upscale *)
      ((Some (mkThumb (types.ContentType media) (Location media)
                      (types.SizeBytes media) animated), None), fs)
    else
      let width := if small then srcWidth else width in
      let height := if small then srcHeight else height in
      let contentType := "image/png" in
      let encoded : string * (string + error) :=
        if animated && ArrayContains (animatedTypes E) (types.ContentType media)
        then
          ("image/gif",
           match os_Open E (Location media) with
           | inr err => inr err
           | inl inputFile =>
               match gif_DecodeAll E inputFile with
               | inr err => inr err
               | inl g =>
                   match thumbnailFrames E g method width height with
                   | inr err => inr err
                   | inl g' => gif_EncodeAll E g'
                   end
               end
           end)
        else
          (contentType,
           match thumbnailFrame E src method width height with
           | inr err => inr err
           | inl src' => imaging_Encode_PNG E src'
           end) in
      let '(contentType, imgData) := encoded in
      match imgData with
      | inr err => ((None, Some err), fs)
      | inl imgData =>
          (* store the file *)
          match PersistFile E fs imgData with
          | (inr err, fs') => ((None, Some err), fs')
          | (inl location, fs') =>
              match FileSize E fs' location with
              | inr err => ((None, Some err), fs')
              | inl fileSize =>
                  ((Some (mkThumb contentType location fileSize animated),
                    None), fs')
              end
          end
      end
  end.

(** The encoding stage of the function, lines 77 to 129: the content type
    and the encoded bytes or the error, for the source image, the method
    and the box as they are after the aspect test and the size test, and
    the flag as it is after the first statement. *)
Definition encodeStage (E : Env) (media : Media) (src : Image)
    (method : string) (width height : Z) (animated : bool)
  : string * (string + error) :=
  if animated && ArrayContains (animatedTypes E) (types.ContentType media)
  then
    ("image/gif",
     match os_Open E (Location media) with
     | inr err => inr err
     | inl inputFile =>
         match gif_DecodeAll E inputFile with
         | inr err => inr err
         | inl g =>
             match thumbnailFrames E g method width height with
             | inr err => inr err
             | inl g' => gif_EncodeAll E g'
             end
         end
     end)
  else
    ("image/png",
     match thumbnailFrame E src method width height with
     | inr err => inr err
     | inl src' => imaging_Encode_PNG E src'
     end).

(** The flag after the first statement of the function: [animated] is kept
    only for a media of an animated type. *)
Definition normalised (E : Env) (media : Media) (animated : bool) : bool :=
  animated && ArrayContains (animatedTypes E) (types.ContentType media).

(** An environment for the examples: every location opens as a 200 x 100
    image, gif is the one animated type, a persisted file is added to the
    files under a location made from their number. *)
Definition sampleEnv : Env :=
  mkEnv ["image/gif"]
    (fun sh sw w h => (sh * h =? w * sw) && negb (sw =? 0) && negb (h =? 0))
    (fun _ => inl (mkImage 200 100 "pixels"))
    (fun i w h => mkImage w h (Pix i))
    (fun i w h => mkImage w h (Pix i))
    (fun i => inl ("png:" ++ Pix i))
    (fun loc => inl loc)
    (fun _ => inl [mkImage 200 100 "frame"])
    (fun _ t => t)
    (fun g => inl "gif")
    (fun fs data =>
       let loc := "/media/" ++ GoString.itoa (N.of_nat (List.length fs)) in
       (inl loc, (loc, data) :: fs))
    (fun fs loc =>
       match List.find (fun f => String.eqb (fst f) loc) fs with
       | Some f => inl (GoString.len (snd f))
       | None => inr "stat: no such file"
       end).

(** The same, except that no location opens as an image. *)
Definition undecodableEnv : Env :=
  mkEnv (animatedTypes sampleEnv) (ratio_eq sampleEnv)
    (fun _ => inr "image: unknown format")
    (imaging_Fit sampleEnv) (imaging_Fill sampleEnv)
    (imaging_Encode_PNG sampleEnv) (os_Open sampleEnv)
    (gif_DecodeAll sampleEnv) (repalette sampleEnv)
    (gif_EncodeAll sampleEnv) (PersistFile sampleEnv) (FileSize sampleEnv).

Definition jpegMedia : Media := mkMedia "image/jpeg" "/media/source" 4096.

Definition gifMedia : Media := mkMedia "image/gif" "/media/anim" 9000.

(** The sample environment, except that the size of no file can be read. *)
Definition noStatEnv : Env :=
  mkEnv (animatedTypes sampleEnv) (ratio_eq sampleEnv)
    (imaging_Open sampleEnv)
    (imaging_Fit sampleEnv) (imaging_Fill sampleEnv)
    (imaging_Encode_PNG sampleEnv) (os_Open sampleEnv)
    (gif_DecodeAll sampleEnv) (repalette sampleEnv)
    (gif_EncodeAll sampleEnv) (PersistFile sampleEnv)
    (fun _ _ => inr "stat: permission denied").

End Thumbnailer.

(** * Properties *)

(** ** Resolver *)

Module ResolverFacts.
Import GoString GoNet Resolver.

Lemma length_app_string (a b : string) :
  String.length (a ++ b) = (String.length a + String.length b)%nat.
Proof. induction a as [|c a IH]; simpl; [reflexivity | now rewrite IH]. Qed.

Lemma substring_app_head (a b : string) :
  String.substring 0 (String.length a) (a ++ b) = a.
Proof. induction a as [|c a IH]; simpl; [now destruct b | now rewrite IH]. Qed.

(** Go's [HasPrefix] accepts what a string was built from. *)
Lemma HasPrefix_app (pre rest : string) : HasPrefix (pre ++ rest) pre = true.
Proof.
  unfold HasPrefix, slice, len. rewrite length_app_string.
  apply andb_true_intro; split.
  - apply Z.leb_le. lia.
  - rewrite Z.sub_0_r, Nat2Z.id. simpl Z.to_nat.
    rewrite substring_app_head. apply String.eqb_refl.
Qed.

Lemma urlOf_https (h p : string) : HasPrefix (urlOf h p) "https://" = true.
Proof. unfold urlOf. apply HasPrefix_app. Qed.

Lemma srvUrl_https (a : SRV) (url : string) :
  srvUrl a = Some url -> HasPrefix url "https://" = true.
Proof.
  unfold srvUrl. destruct (len (Target a) =? 0); [discriminate|].
  intros [= <-]. apply HasPrefix_app.
Qed.

(** An item set at [now] is found until its expiration instant. *)
Lemma Cache_Get_Set (c : gmap string (string * Z)) (now now' : Z)
    (k v : string) :
  now' <= now + defaultExpiration ->
  Cache_Get (Cache_Set c now k v) now' k = Some v.
Proof.
  intros Hle. unfold Cache_Get, Cache_Set. rewrite lookup_insert_eq.
  change (0 <? defaultExpiration) with true. cbv iota.
  destruct (0 <? now + defaultExpiration); [|reflexivity].
  destruct (Z.ltb_spec (now + defaultExpiration) now'); [lia | reflexivity].
Qed.

Local Ltac stored_https :=
  cbn [miss_post];
  split; [reflexivity|];
  split; [first [apply urlOf_https | eapply srvUrl_https; eassumption]|].

Lemma resolve_miss_cases (W : World) (now : Z)
    (cache : gmap string (string * Z)) (hostname : string) :
  Cache_Get cache now hostname = None ->
  miss_post W now cache hostname (GetServerApiUrl W now cache hostname).
Proof.
  intros Hmiss. unfold GetServerApiUrl. rewrite Hmiss.
  assert (Hh : hostOf hostname = fst (fst (fst (splitDefaultPort hostname))))
    by (unfold hostOf; now destruct (splitDefaultPort hostname) as [[[? ?] ?] ?]).
  destruct (splitDefaultPort hostname) as [[[h p] err] defPort].
  cbn [fst] in Hh.
  destruct err as [e|]; [reflexivity|].
  destruct (is_IP W h).
  { stored_https. now left. }
  destruct defPort; cbn [negb].
  2:{ stored_https. right; left. now rewrite Hh. }
  assert (Hstep4 : miss_post W now cache hostname
    match net_LookupSRV W hostname with
    | [] => (Return (urlOf h p) h None, Cache_Set cache now hostname (urlOf h p))
    | a :: _ =>
        match srvUrl a with
        | Some url0 => (Return url0 h None, Cache_Set cache now hostname url0)
        | None => (Panics, cache)
        end
    end).
  { destruct (net_LookupSRV W hostname) as [|a ?].
    - stored_https. right; left. now rewrite Hh.
    - destruct (srvUrl a) eqn:Hsrv; [|reflexivity].
      stored_https. right; left. now rewrite Hh. }
  destruct (http_Get W _) as [[status [c|]]|]; try exact Hstep4.
  destruct (status =? StatusOK); try exact Hstep4.
  destruct (json_ServerAddr W c) as [addr|] eqn:Hjson; try exact Hstep4.
  destruct (String.eqb_spec addr "") as [->|Hne]; cbn [negb]; try exact Hstep4.
  assert (Hwh : hostOf addr = fst (fst (fst (splitDefaultPort addr))))
    by (unfold hostOf; now destruct (splitDefaultPort addr) as [[[? ?] ?] ?]).
  destruct (splitDefaultPort addr) as [[[wkHost wkPort] err4] wkDefPort].
  cbn [fst] in Hwh.
  destruct err4; try exact Hstep4.
  assert (Hdel : forall s, s = addr \/ s = wkHost ->
            s = hostname \/ s = hostOf hostname
            \/ exists c addr, json_ServerAddr W c = Some addr /\ addr <> ""
                 /\ (s = addr \/ s = hostOf addr)).
  { intros s Hs. right; right. exists c, addr. rewrite Hwh. auto. }
  destruct (is_IP W wkHost).
  { stored_https. apply Hdel. now left. }
  destruct wkDefPort; cbn [negb].
  2:{ stored_https. apply Hdel. now right. }
  destruct (net_LookupSRV W wkHost) as [|a ?].
  - stored_https. apply Hdel. now right.
  - destruct (srvUrl a) eqn:Hsrv; [|reflexivity].
    stored_https. apply Hdel. now right.
Qed.

Lemma resolve_hit (W : World) (now : Z) (cache : gmap string (string * Z))
    (hostname url : string) :
  Cache_Get cache now hostname = Some url ->
  GetServerApiUrl W now cache hostname = (Return url hostname None, cache).
Proof. intros Hhit. unfold GetServerApiUrl. now rewrite Hhit. Qed.




(** Two calls for [example.com:8449] in a row: the first parses the name
    and returns its host part, the second finds the url in the cache and
    returns the whole input. *)
Example first_call_explicit_port :
  fst (GetServerApiUrl quietWorld 0 ∅ "example.com:8449")
  = Return "https://example.com:8449" "example.com" None.
Proof. vm_compute. reflexivity. Qed.

Example second_call_explicit_port :
  fst (GetServerApiUrl quietWorld 1 filledCache "example.com:8449")
  = Return "https://example.com:8449" "example.com:8449" None.
Proof. vm_compute. reflexivity. Qed.

(** Scenario 3 of the specification. *)
Example resolve_ip_literal :
  fst (GetServerApiUrl quietWorld 0 ∅ "1.2.3.4")
  = Return "https://1.2.3.4:8448" "1.2.3.4" None.
Proof. vm_compute. reflexivity. Qed.

(** Scenario 4 of the specification. *)
Example resolve_delegated :
  fst (GetServerApiUrl delegatingWorld 0 ∅ "delegated.test")
  = Return "https://actual.test:443" "actual.test" None.
Proof. vm_compute. reflexivity. Qed.

(** C2, as stated, fails: within the hour the second call for
    [example.com:8449] hits the cache, and the pair it returns differs from
    the first call's pair in the host. *)
Lemma successive_calls_differ :
  Cache_Get filledCache 1 "example.com:8449" = Some "https://example.com:8449"
  /\ fst (GetServerApiUrl quietWorld 0 ∅ "example.com:8449")
     <> fst (GetServerApiUrl quietWorld 1 filledCache "example.com:8449").
Proof. split; [vm_compute; reflexivity | vm_compute; discriminate]. Qed.

(** C2, amended: after a call that missed the cache and returned
    [(url, sni)] without error, a call for the same name within the
    expiration time hits the cache, returns the same url with the input
    name as host, and leaves the cache alone, whatever the outside is by
    then.  The two pairs are equal exactly when the first host was the
    input name. *)
Theorem successive_calls_same_url (W W' : World) (now now' : Z)
    (cache cache' : gmap string (string * Z)) (h url sni : string) :
  Cache_Get cache now h = None ->
  GetServerApiUrl W now cache h = (Return url sni None, cache') ->
  now <= now' <= now + defaultExpiration ->
  GetServerApiUrl W' now' cache' h = (Return url h None, cache')
  /\ (fst (GetServerApiUrl W' now' cache' h) = Return url sni None
      <-> sni = h).
Proof.
  intros Hmiss Hfirst Hnow.
  pose proof (resolve_miss_cases W now cache h Hmiss) as Hpost.
  rewrite Hfirst in Hpost. destruct Hpost as (-> & _ & _).
  assert (Hsecond : GetServerApiUrl W' now' (Cache_Set cache now h url) h
                    = (Return url h None, Cache_Set cache now h url)).
  { apply resolve_hit, Cache_Get_Set. lia. }
  split; [exact Hsecond|].
  rewrite Hsecond. cbn [fst]. split; [now intros [= ->] | now intros ->].
Qed.

Lemma successive_calls_same_url_witness :
  GetServerApiUrl delegatingWorld 5 filledCache "example.com:8449"
  = (Return "https://example.com:8449" "example.com:8449" None, filledCache)
  /\ (fst (GetServerApiUrl delegatingWorld 5 filledCache "example.com:8449")
      = Return "https://example.com:8449" "example.com" None
      <-> "example.com" = "example.com:8449").
Proof.
  apply (successive_calls_same_url quietWorld delegatingWorld 0 5 ∅).
  - vm_compute. reflexivity.
  - vm_compute. reflexivity.
  - vm_compute. split; discriminate.
Defined.





(** C8: when the call hits the cache, it returns the cached url together
    with the input name itself, whatever the cache holds and whatever host
    the call that filled it returned; the cache keeps the url only. *)
Theorem cache_hit_returns_input_name (W : World) (now : Z)
    (cache : gmap string (string * Z)) (hostname url : string) :
  Cache_Get cache now hostname = Some url ->
  GetServerApiUrl W now cache hostname = (Return url hostname None, cache).
Proof. apply resolve_hit. Qed.

Lemma cache_hit_returns_input_name_witness :
  fst (GetServerApiUrl delegatingWorld 0 ∅ "delegated.test")
  = Return "https://actual.test:443" "actual.test" None
  /\ GetServerApiUrl delegatingWorld 9 delegatedCache "delegated.test"
     = (Return "https://actual.test:443" "delegated.test" None,
        delegatedCache).
Proof.
  split; [vm_compute; reflexivity|].
  apply (cache_hit_returns_input_name delegatingWorld 9 delegatedCache).
  vm_compute. reflexivity.
Defined.

End ResolverFacts.

(** ** Federated fetcher *)

Module FetcherFacts.
Import Fetcher.

(** The dial function once the first handshake has failed: the second
    handshake carries no server name and still skips verification, no third
    one is attempted, and no connection is returned either way. *)
Lemma DialTLS_after_failure (N : Network) (realHost network addr : string)
    (rawconn : RawConn) (e1 : error) :
  dial N network addr = inl rawconn ->
  handshake N rawconn 0%nat (mkTlsConfig realHost true) = Some e1 ->
  DialTLS N realHost network addr
  = ((None,
      Some (match handshake N rawconn 1%nat (mkTlsConfig "" true) with
            | Some e2 => e2
            | None => e1
            end)),
     [mkTlsConfig realHost true; mkTlsConfig "" true]).
Proof.
  intros Hdial Hfirst. unfold DialTLS. rewrite Hdial, Hfirst.
  now destruct (handshake N rawconn 1%nat _).
Qed.

Lemma DialTLS_first_try (N : Network) (realHost network addr : string)
    (rawconn : RawConn) :
  dial N network addr = inl rawconn ->
  handshake N rawconn 0%nat (mkTlsConfig realHost true) = None ->
  DialTLS N realHost network addr
  = ((Some (tls_Client rawconn (mkTlsConfig realHost true)), None),
     [mkTlsConfig realHost true]).
Proof. intros Hdial Hfirst. unfold DialTLS. now rewrite Hdial, Hfirst. Qed.

(** When the first handshake succeeds the request goes over that
    connection and the outcome of the round trip is the outcome of the
    call. *)
Lemma first_handshake_success (N : Network) (url realHost : string)
    (u : Url) (rawconn : RawConn) :
  url_Parse N url = inl u ->
  Scheme u = "https" ->
  dial N "tcp" (HostPort u) = inl rawconn ->
  handshake N rawconn 0%nat (mkTlsConfig realHost true) = None ->
  FederatedGet N url realHost
  = (match round_trip N (tls_Client rawconn (mkTlsConfig realHost true))
             (mkRequest "GET" u realHost
                [("Host", realHost); ("User-Agent", "matrix-media-repo")])
     with
     | inl resp => (Some resp, None)
     | inr err => (None, Some err)
     end, [mkTlsConfig realHost true]).
Proof.
  intros Hurl Hscheme Hdial Hfirst. unfold FederatedGet, RoundTrip.
  rewrite Hurl. cbn [URL]. rewrite Hscheme, String.eqb_refl.
  rewrite (DialTLS_first_try _ _ _ _ _ Hdial Hfirst).
  now destruct (round_trip N _ _).
Qed.

(** The peer that only accepts a handshake without server name: the
    fallback handshake succeeds, and the caller gets the first error and no
    response. *)
Example picky_peer_is_not_reached :
  FederatedGet pickyPeer "https://peer.test:8448/_matrix/media/v1/download/x"
    "peer.test"
  = ((None, Some "tls: unrecognized name"),
     [mkTlsConfig "peer.test" true; mkTlsConfig "" true]).
Proof. reflexivity. Qed.

(** The peer that refuses both handshakes: the caller gets the error of the
    second one. *)
Example deaf_peer_second_error :
  FederatedGet deafPeer "https://peer.test:8448/_matrix/media/v1/download/x"
    "peer.test"
  = ((None, Some "tls: handshake failure"),
     [mkTlsConfig "peer.test" true; mkTlsConfig "" true]).
Proof. reflexivity. Qed.

(** C1: what the code does when the first handshake of a federated GET
    fails.  It retries exactly once, without server name and with
    verification disabled; but whatever the retry gives, the call returns
    no response: the first error when the retry succeeded, the error of the
    retry when it failed. *)
Theorem handshake_fallback_outcome (N : Network) (url realHost : string)
    (u : Url) (rawconn : RawConn) (e1 : error) :
  url_Parse N url = inl u ->
  Scheme u = "https" ->
  dial N "tcp" (HostPort u) = inl rawconn ->
  handshake N rawconn 0%nat (mkTlsConfig realHost true) = Some e1 ->
  FederatedGet N url realHost
  = ((None,
      Some (match handshake N rawconn 1%nat (mkTlsConfig "" true) with
            | Some e2 => e2
            | None => e1
            end)),
     [mkTlsConfig realHost true; mkTlsConfig "" true]).
Proof.
  intros Hurl Hscheme Hdial Hfirst. unfold FederatedGet, RoundTrip.
  rewrite Hurl. cbn [URL]. rewrite Hscheme, String.eqb_refl.
  now rewrite (DialTLS_after_failure _ _ _ _ _ _ Hdial Hfirst).
Qed.

Lemma handshake_fallback_outcome_witness :
  FederatedGet pickyPeer "https://peer.test:8448/x" "peer.test"
  = ((None, Some "tls: unrecognized name"),
     [mkTlsConfig "peer.test" true; mkTlsConfig "" true]).
Proof.
  apply (handshake_fallback_outcome pickyPeer "https://peer.test:8448/x"
           "peer.test"
           (mkUrl "https://peer.test:8448/x" "https" "peer.test:8448")
           7%nat "tls: unrecognized name");
    reflexivity.
Defined.

End FetcherFacts.

(** ** Datastore registry *)

Module StorageFacts.
Import types Storage.

Section AnyStore.
Context {Db : Type} `{MediaStore Db}.

(** A lookup error other than not-found is dropped: the function hands
    back the datastore value the lookup returned with it, and no error. *)
Lemma lookup_error_value (others : Db -> Db) (db : Db) (entropy : list N)
    (dsType dsUri : string) (d : option Datastore) (e : error) :
  GetDatastoreByUri db dsUri = (d, Some e) ->
  e <> ErrNoRows ->
  GetOrCreateDatastoreOfType_among others db entropy dsType dsUri
  = ((d, None), db, entropy).
Proof.
  intros Hget Hne. unfold GetOrCreateDatastoreOfType_among. rewrite Hget.
  destruct e; [contradiction | reflexivity | reflexivity].
Qed.

(** A lookup that finds the record returns it, and nothing changes. *)
Lemma lookup_found (others : Db -> Db) (db : Db) (entropy : list N)
    (dsType dsUri : string) (d : option Datastore) :
  GetDatastoreByUri db dsUri = (d, None) ->
  GetOrCreateDatastoreOfType_among others db entropy dsType dsUri
  = ((d, None), db, entropy).
Proof.
  intros Hget. unfold GetOrCreateDatastoreOfType_among. now rewrite Hget.
Qed.

(** C3, amended: when the lookup misses and the insert then fails, be it
    with the uniqueness violation a concurrent caller caused or with any
    other error, the call returns no datastore and that insert error; the
    insert is its last access to the database. *)
Theorem insert_error_is_surfaced (others : Db -> Db) (db db' : Db)
    (entropy entropy' : list N) (dsType dsUri id : string)
    (d0 : option Datastore) (e : error) :
  GetDatastoreByUri db dsUri = (d0, Some ErrNoRows) ->
  GenerateRandomString entropy 32 = ((id, None), entropy') ->
  InsertDatastore (others db) (mkDatastore id dsType dsUri) = (Some e, db') ->
  GetOrCreateDatastoreOfType_among others db entropy dsType dsUri
  = ((None, Some e), db', entropy').
Proof.
  intros Hget Hrand Hins. unfold GetOrCreateDatastoreOfType_among.
  rewrite Hget. cbn [is_ErrNoRows]. rewrite Hrand, Hins. reflexivity.
Qed.

(** C9, amended: when the lookup fails with an error other than
    not-found, the function returns a nil error together with the
    datastore value the lookup handed back with its error, nil only if
    that was nil, and touches neither the database nor the entropy
    source. *)
Theorem lookup_error_is_dropped (others : Db -> Db) (db : Db)
    (entropy : list N) (dsType dsUri : string) (d : option Datastore)
    (e : error) :
  GetDatastoreByUri db dsUri = (d, Some e) ->
  e <> ErrNoRows ->
  GetOrCreateDatastoreOfType_among others db entropy dsType dsUri
  = ((d, None), db, entropy).
Proof. apply lookup_error_value. Qed.

End AnyStore.

(** C3, as stated, fails: the lookup misses, another caller inserts the
    datastore for the uri first, the insert fails with the uniqueness
    violation, and the call returns that error and no record although the
    table now holds one for the uri. *)
Lemma unique_violation_is_returned :
  GetOrCreateDatastoreOfType_among rival emptyTable someEntropy "file" "/tmp/a"
  = ((None, Some ErrUniqueViolation), rival emptyTable,
     List.skipn 32 someEntropy)
  /\ byUri "/tmp/a" (rival emptyTable)
     = Some (mkDatastore "RIVALRIVALRIVALRIVALRIVALRIVAL00" "file" "/tmp/a").
Proof. split; reflexivity. Qed.

Lemma insert_error_is_surfaced_witness :
  GetOrCreateDatastoreOfType_among rival emptyTable someEntropy "file" "/tmp/a"
  = ((None, Some ErrUniqueViolation), rival emptyTable,
     List.skipn 32 someEntropy).
Proof.
  apply (insert_error_is_surfaced rival emptyTable (rival emptyTable)
           someEntropy (List.skipn 32 someEntropy) "file" "/tmp/a"
           "ABCDEFGHIJKLMNOPQRSTUVWXYZabcdef" None ErrUniqueViolation);
    reflexivity.
Defined.

(** C9, as stated, fails: over a store whose failed lookup hands back the
    empty record it scanned into, the function returns that record, not
    nil, with a nil error. *)
Lemma dropped_error_keeps_record :
  @GetDatastoreByUri Table scanningStore (mkTable [] false) "/tmp/a"
  = (Some (mkDatastore "" "" ""), Some driverError)
  /\ @GetOrCreateDatastoreOfType_among Table scanningStore (fun t => t)
       (mkTable [] false) someEntropy "file" "/tmp/a"
     = ((Some (mkDatastore "" "" ""), None), mkTable [] false, someEntropy).
Proof. split; reflexivity. Qed.

Lemma lookup_error_is_dropped_witness :
  @GetOrCreateDatastoreOfType_among Table scanningStore (fun t => t)
    (mkTable [] false) someEntropy "file" "/tmp/a"
  = ((Some (mkDatastore "" "" ""), None), mkTable [] false, someEntropy).
Proof.
  apply (@lookup_error_is_dropped Table scanningStore (fun t => t)
           (mkTable [] false) someEntropy "file" "/tmp/a"
           (Some (mkDatastore "" "" "")) driverError).
  - reflexivity.
  - discriminate.
Defined.

(** *** The identifier *)

Lemma get_in_string (s : string) (n : nat) (a : ascii) :
  String.get n s = Some a -> In a (list_ascii_of_string s).
Proof.
  revert n. induction s as [|c s IH]; intros n; simpl; [discriminate|].
  destruct n as [|n]; [intros [= ->]; now left | intros Hn; right; eauto].
Qed.

Lemma alphabetChar_in (b : N) :
  In (alphabetChar b) (list_ascii_of_string alphabet).
Proof.
  unfold alphabetChar.
  destruct (String.get _ alphabet) as [a|] eqn:Hget.
  - eapply get_in_string, Hget.
  - now left.
Qed.

Lemma randomChars_enough (n : nat) (entropy : list N) :
  (n <= List.length entropy)%nat ->
  exists s,
    randomChars n entropy = Some (s, List.skipn n entropy)
    /\ String.length s = n
    /\ Forall (fun a => In a (list_ascii_of_string alphabet))
              (list_ascii_of_string s).
Proof.
  revert entropy. induction n as [|n IH]; intros entropy Hlen.
  - exists "". repeat split. constructor.
  - destruct entropy as [|b rest]; [simpl in Hlen; lia|].
    destruct (IH rest) as (s & Hs & Hl & Hall); [simpl in Hlen; lia|].
    exists (String (alphabetChar b) s). simpl. rewrite Hs, Hl.
    repeat split. constructor; [apply alphabetChar_in | exact Hall].
Qed.

(** *** The table *)

Lemma byUri_append (t : Table) (d : Datastore) :
  byUri (Uri d) t = None ->
  byUri (Uri d) (mkTable (rows t ++ [d]) (online t)) = Some d.
Proof.
  unfold byUri. cbn [rows]. induction (rows t) as [|r rs IH]; simpl.
  - now rewrite String.eqb_refl.
  - destruct (String.eqb (Uri r) (Uri d)); [discriminate | exact IH].
Qed.

Lemma found_is_returned (t : Table) (entropy : list N)
    (dsType dsUri : string) (d : Datastore) :
  online t = true -> byUri dsUri t = Some d ->
  GetOrCreateDatastoreOfType t entropy dsType dsUri
  = ((Some d, None), t, entropy).
Proof.
  intros Hon Hd. apply lookup_found. cbn. now rewrite Hon, Hd.
Qed.

Lemma repeated_found (n : nat) (t : Table) (entropy : list N)
    (dsType dsUri : string) (d : Datastore) :
  online t = true -> byUri dsUri t = Some d ->
  repeated n t entropy dsType dsUri = List.repeat (Some d, None) n.
Proof.
  intros Hon Hd. induction n as [|n IH]; [reflexivity|].
  cbn [repeated List.repeat].
  rewrite (found_is_returned t entropy dsType dsUri d Hon Hd).
  now rewrite IH.
Qed.

(** C7: on a reachable table without a record for the uri, and an entropy
    source that supplies 32 bytes, the first call creates a record whose
    identifier is the 32 characters just generated (each in A-Z, a-z, 0-9),
    with the given type and uri, and inserts it; every call of any number
    of repeated calls returns that same record, so the same identifier. *)
Theorem repeated_calls_same_datastore (t : Table) (entropy : list N)
    (dsType dsUri : string) (n : nat) :
  online t = true ->
  byUri dsUri t = None ->
  (32 <= List.length entropy)%nat ->
  exists id,
    GenerateRandomString entropy 32 = ((id, None), List.skipn 32 entropy)
    /\ String.length id = 32%nat
    /\ Forall (fun a => In a (list_ascii_of_string alphabet))
              (list_ascii_of_string id)
    /\ GetOrCreateDatastoreOfType t entropy dsType dsUri
       = ((Some (mkDatastore id dsType dsUri), None),
          mkTable (rows t ++ [mkDatastore id dsType dsUri]) true,
          List.skipn 32 entropy)
    /\ repeated (S n) t entropy dsType dsUri
       = List.repeat (Some (mkDatastore id dsType dsUri), None) (S n).
Proof.
  intros Hon Hmiss Hlen.
  destruct (randomChars_enough 32 entropy Hlen) as (id & Hid & Hl & Hall).
  assert (Hrand : GenerateRandomString entropy 32
                  = ((id, None), List.skipn 32 entropy)).
  { unfold GenerateRandomString.
    change (Z.to_nat 32) with 32%nat. now rewrite Hid. }
  assert (Hfirst : GetOrCreateDatastoreOfType t entropy dsType dsUri
       = ((Some (mkDatastore id dsType dsUri), None),
          mkTable (rows t ++ [mkDatastore id dsType dsUri]) true,
          List.skipn 32 entropy)).
  { unfold GetOrCreateDatastoreOfType, GetOrCreateDatastoreOfType_among.
    cbn [GetDatastoreByUri InsertDatastore TableStore Uri].
    rewrite Hon, Hmiss. cbn [is_ErrNoRows]. rewrite Hrand.
    cbn [Uri]. rewrite ?Hon, ?Hmiss. reflexivity. }
  exists id. repeat split; try assumption.
  cbn [repeated List.repeat]. rewrite Hfirst. f_equal.
  apply repeated_found; [reflexivity|].
  pose proof (byUri_append t (mkDatastore id dsType dsUri) Hmiss) as Happ.
  rewrite Hon in Happ. exact Happ.
Qed.

Lemma repeated_calls_same_datastore_witness :
  exists id,
    GenerateRandomString someEntropy 32 = ((id, None), List.skipn 32 someEntropy)
    /\ String.length id = 32%nat
    /\ Forall (fun a => In a (list_ascii_of_string alphabet))
              (list_ascii_of_string id)
    /\ GetOrCreateDatastoreOfType emptyTable someEntropy "file" "/tmp/a"
       = ((Some (mkDatastore id "file" "/tmp/a"), None),
          mkTable (rows emptyTable ++ [mkDatastore id "file" "/tmp/a"]) true,
          List.skipn 32 someEntropy)
    /\ repeated 3 emptyTable someEntropy "file" "/tmp/a"
       = List.repeat (Some (mkDatastore id "file" "/tmp/a"), None) 3.
Proof.
  apply (repeated_calls_same_datastore emptyTable someEntropy "file" "/tmp/a" 2).
  - reflexivity.
  - reflexivity.
  - vm_compute. lia.
Defined.

End StorageFacts.

(** ** Thumbnailer *)

Module ThumbnailerFacts.
Import types Thumbnailer.

Lemma normalise_flag (E : Env) (media : Media) (animated : bool) :
  (if animated
      && negb (ArrayContains (animatedTypes E) (types.ContentType media))
   then false else animated)
  = normalised E media animated.
Proof.
  unfold normalised. destruct animated; [|reflexivity].
  now destruct (ArrayContains _ _).
Qed.

Lemma normalised_contains (E : Env) (media : Media) (animated : bool) :
  normalised E media animated
  && ArrayContains (animatedTypes E) (types.ContentType media)
  = normalised E media animated.
Proof.
  unfold normalised. destruct animated; [|reflexivity].
  now destruct (ArrayContains _ _).
Qed.

(** Scenario 5 of the specification, with a jpeg source. *)
Example small_jpeg_passes_through :
  GenerateThumbnail sampleEnv [] jpegMedia 400 400 "scale" false false
  = ((Some (mkThumb "image/jpeg" "/media/source" 4096 false), None), []).
Proof. reflexivity. Qed.

Example forced_small_jpeg_is_generated :
  GenerateThumbnail sampleEnv [] jpegMedia 400 400 "scale" false true
  = ((Some (mkThumb "image/png" "/media/0" 10 false), None),
     [("/media/0", "png:pixels")]).
Proof. reflexivity. Qed.

Example unknown_method_fails :
  GenerateThumbnail sampleEnv [] jpegMedia 100 60 "stretch" false false
  = ((None, Some "unrecognized method: stretch"), []).
Proof. reflexivity. Qed.

(** C6: when the source opens as an image no wider than [width] and no
    higher than [height], and generation is not forced, the function
    returns a record with the location, content type and size of the media
    itself, and the persisted files are the ones there were. *)
Theorem small_source_passes_through (E : Env) (fs : Files) (media : Media)
    (width height : Z) (method : string) (animated : bool) (src : Image) :
  imaging_Open E (Location media) = inl src ->
  MaxX src <= width ->
  MaxY src <= height ->
  GenerateThumbnail E fs media width height method animated false
  = ((Some (mkThumb (types.ContentType media) (Location media)
                    (types.SizeBytes media) (normalised E media animated)),
      None), fs).
Proof.
  intros Hopen Hw Hh. unfold GenerateThumbnail. cbv zeta.
  rewrite Hopen, !normalise_flag.
  destruct (Z.leb_spec (MaxX src) width); [|lia].
  destruct (Z.leb_spec (MaxY src) height); [|lia].
  reflexivity.
Qed.

Lemma small_source_passes_through_witness :
  GenerateThumbnail sampleEnv [] jpegMedia 400 400 "crop" true false
  = ((Some (mkThumb "image/jpeg" "/media/source" 4096 false), None), []).
Proof.
  apply (small_source_passes_through sampleEnv [] jpegMedia 400 400 "crop"
           true (mkImage 200 100 "pixels")).
  - reflexivity.
  - simpl. lia.
  - simpl. lia.
Defined.

(** The error of [imaging.Open] ends the function at once. *)
Lemma open_error_returned (E : Env) (fs : Files) (media : Media)
    (width height : Z) (method : string) (animated forceGeneration : bool)
    (err : error) :
  imaging_Open E (Location media) = inr err ->
  GenerateThumbnail E fs media width height method animated forceGeneration
  = ((None, Some err), fs).
Proof. intros Hopen. unfold GenerateThumbnail. now rewrite Hopen. Qed.

(** C10: when the file of the media does not open as an image, the
    function returns that error and no record, whatever the dimensions and
    flags, and persists nothing. *)
Theorem undecodable_source_fails (E : Env) (fs : Files) (media : Media)
    (width height : Z) (method : string) (animated forceGeneration : bool)
    (err : error) :
  imaging_Open E (Location media) = inr err ->
  GenerateThumbnail E fs media width height method animated forceGeneration
  = ((None, Some err), fs).
Proof. apply open_error_returned. Qed.

Lemma undecodable_source_fails_witness :
  GenerateThumbnail undecodableEnv [] jpegMedia 400 400 "scale" false false
  = ((None, Some "image: unknown format"), []).
Proof.
  apply (undecodable_source_fails undecodableEnv [] jpegMedia 400 400 "scale"
           false false "image: unknown format").
  reflexivity.
Defined.

(** A record is only ever returned after the source was opened. *)
Lemma record_needs_decoded_source (E : Env) (fs fs' : Files) (media : Media)
    (width height : Z) (method : string) (animated forceGeneration : bool)
    (thumb : generatedThumbnail) (err : option error) :
  GenerateThumbnail E fs media width height method animated forceGeneration
  = ((Some thumb, err), fs') ->
  exists src, imaging_Open E (Location media) = inl src.
Proof.
  destruct (imaging_Open E (Location media)) as [src|e] eqn:Hopen.
  - intros _. now exists src.
  - now rewrite (open_error_returned _ _ _ _ _ _ _ _ _ Hopen).
Qed.

(** C4, as stated, fails: the pass-through record of a jpeg media is not
    animated and its content type is neither png nor gif. *)
Lemma pass_through_keeps_jpeg :
  exists thumb,
    fst (GenerateThumbnail sampleEnv [] jpegMedia 400 400 "scale" false false)
    = (Some thumb, None)
    /\ Animated thumb = false
    /\ ContentType thumb <> "image/png".
Proof.
  exists (mkThumb "image/jpeg" "/media/source" 4096 false).
  repeat split. discriminate.
Qed.

(** C4, amended: a record the function returns is the pass-through
    record exactly when the source fits within the box and generation is
    not forced, and then it has the content type and the location of the
    media; otherwise it is a generated one, whose content type is
    [image/gif] when its [Animated] flag is set and [image/png] when it is
    not.  The flag is the requested one, cleared for a media that is not
    of an animated type. *)
Theorem content_type_of_record (E : Env) (fs fs' : Files) (media : Media)
    (width height : Z) (method : string) (animated forceGeneration : bool)
    (thumb : generatedThumbnail) :
  GenerateThumbnail E fs media width height method animated forceGeneration
  = ((Some thumb, None), fs') ->
  exists src,
    imaging_Open E (Location media) = inl src
    /\ Animated thumb = normalised E media animated
    /\ if (MaxX src <=? width) && (MaxY src <=? height)
          && negb forceGeneration
       then ContentType thumb = types.ContentType media
            /\ DiskLocation thumb = Location media
       else ContentType thumb
            = if Animated thumb then "image/gif" else "image/png".
Proof.
  unfold GenerateThumbnail. cbv zeta. rewrite !normalise_flag.
  destruct (imaging_Open E (Location media)) as [src|e]; [|discriminate].
  intros Hcall. exists src. split; [reflexivity|]. revert Hcall.
  destruct ((MaxX src <=? width) && (MaxY src <=? height)
            && negb forceGeneration).
  { intros [= <- _]. repeat split. }
  rewrite normalised_contains.
  destruct (normalised E media animated); cbv beta iota.
  all: match goal with |- _ -> ?G => set (Post := G) end.
  all: repeat match goal with
         | |- context [match ?x with _ => _ end] => destruct x
         end; try discriminate.
  all: subst Post; intros [= <- _]; split; reflexivity.
Qed.

Lemma content_type_of_record_witness :
  exists src,
    imaging_Open sampleEnv (Location jpegMedia) = inl src
    /\ Animated (mkThumb "image/jpeg" "/media/source" 4096 false)
       = normalised sampleEnv jpegMedia true
    /\ if (MaxX src <=? 400) && (MaxY src <=? 400) && negb false
       then ContentType (mkThumb "image/jpeg" "/media/source" 4096 false)
            = types.ContentType jpegMedia
            /\ DiskLocation (mkThumb "image/jpeg" "/media/source" 4096 false)
               = Location jpegMedia
       else ContentType (mkThumb "image/jpeg" "/media/source" 4096 false)
            = if Animated (mkThumb "image/jpeg" "/media/source" 4096 false)
              then "image/gif" else "image/png".
Proof.
  apply (content_type_of_record sampleEnv [] [] jpegMedia 400 400 "crop"
           true false).
  reflexivity.
Defined.

(** A generated record of a gif media asked for as an animation is a gif,
    one asked for as a still is a png. *)
Example generated_gif_and_png :
  fst (GenerateThumbnail sampleEnv [] gifMedia 100 50 "crop" true false)
  = (Some (mkThumb "image/gif" "/media/0" 3 true), None)
  /\ fst (GenerateThumbnail sampleEnv [] gifMedia 100 50 "crop" false false)
     = (Some (mkThumb "image/png" "/media/0" 10 false), None).
Proof. split; reflexivity. Qed.

End ThumbnailerFacts.

(** ** Host and port strings *)

Module GoNetFacts.
Import GoString GoNet.

Lemma len_nonneg (s : string) : 0 <= len s.
Proof. unfold len. lia. Qed.

Lemma len_app (a b : string) : len (a ++ b) = len a + len b.
Proof.
  unfold len. induction a as [|c a IH].
  - reflexivity.
  - change (String c a ++ b) with (String c (a ++ b)).
    cbn [String.length]. rewrite !Nat2Z.inj_succ. lia.
Qed.

Lemma substring_all (s : string) : String.substring 0 (String.length s) s = s.
Proof. induction s as [|c s IH]; simpl; [reflexivity | now rewrite IH]. Qed.

Lemma substring_head (a b : string) :
  String.substring 0 (String.length a) (a ++ b) = a.
Proof. induction a as [|c a IH]; simpl; [now destruct b | now rewrite IH]. Qed.

Lemma substring_tail (a b : string) (n : nat) :
  String.substring (String.length a) n (a ++ b) = String.substring 0 n b.
Proof. induction a as [|c a IH]; simpl; [reflexivity | exact IH]. Qed.

Lemma app_assoc_string (a b c : string) : (a ++ b) ++ c = a ++ b ++ c.
Proof.
  induction a as [|x a IH]; [reflexivity|].
  change (String x ((a ++ b) ++ c) = String x (a ++ b ++ c)). now rewrite IH.
Qed.

Lemma slice_from_0 (s : string) : slice_from s 0 = s.
Proof.
  unfold slice_from, slice, len. rewrite Z.sub_0_r, Nat2Z.id.
  apply substring_all.
Qed.

Lemma slice_head (a b : string) : slice (a ++ b) 0 (len a) = a.
Proof.
  unfold slice, len. rewrite Z.sub_0_r, Nat2Z.id. apply substring_head.
Qed.

Lemma slice_from_tail (a b : string) : slice_from (a ++ b) (len a) = b.
Proof.
  unfold slice_from, slice. rewrite len_app.
  replace (len a + len b - len a) with (len b) by lia.
  unfold len. rewrite !Nat2Z.id, substring_tail. apply substring_all.
Qed.

(** [HasSuffix] accepts what a string ends with by construction. *)
Lemma HasSuffix_app (a s : string) : HasSuffix (a ++ s) s = true.
Proof.
  unfold HasSuffix. rewrite len_app.
  replace (len a + len s - len s) with (len a) by lia.
  rewrite slice_from_tail, String.eqb_refl.
  pose proof (len_nonneg a). apply andb_true_intro; split; [|reflexivity].
  apply Z.leb_le. lia.
Qed.

Lemma IndexByteString_range (s : string) (c : ascii) :
  -1 <= IndexByteString s c.
Proof.
  induction s as [|a s IH]; simpl; [lia|].
  destruct (Ascii.eqb a c); [lia|].
  destruct (Z.ltb_spec (IndexByteString s c) 0); lia.
Qed.

Lemma IndexByteString_app_absent (a b : string) (c : ascii) :
  IndexByteString a c < 0 -> IndexByteString b c < 0 ->
  IndexByteString (a ++ b) c < 0.
Proof.
  induction a as [|x a IH]; simpl; [auto|].
  destruct (Ascii.eqb x c); [lia|].
  destruct (Z.ltb_spec (IndexByteString a c) 0) as [Ha|Ha]; [|lia].
  intros _ Hb. specialize (IH Ha Hb).
  destruct (Z.ltb_spec (IndexByteString (a ++ b) c) 0); lia.
Qed.

Lemma IndexByteString_cons_absent (x c : ascii) (s : string) :
  Ascii.eqb x c = false -> IndexByteString s c < 0 ->
  IndexByteString (String x s) c < 0.
Proof.
  intros Hx Hs. simpl. rewrite Hx.
  destruct (Z.ltb_spec (IndexByteString s c) 0); lia.
Qed.

Lemma last_absent (s : string) (c : ascii) :
  IndexByteString s c < 0 -> last s c = -1.
Proof.
  induction s as [|a s IH]; simpl; [reflexivity|].
  destruct (Ascii.eqb a c); [lia|].
  destruct (Z.ltb_spec (IndexByteString s c) 0) as [Hs|Hs]; [|lia].
  intros _. now rewrite (IH Hs).
Qed.

Lemma last_separator (a b : string) (c : ascii) :
  IndexByteString b c < 0 -> last (a ++ String c b) c = len a.
Proof.
  intros Hb. induction a as [|x a IH].
  - simpl. rewrite (last_absent b c Hb). cbn. now rewrite Ascii.eqb_refl.
  - change (String x a ++ String c b) with (String x (a ++ String c b)).
    cbn [last]. rewrite IH.
    pose proof (len_nonneg a) as Hn.
    destruct (Z.leb_spec 0 (len a)); [|lia].
    unfold len. simpl String.length. lia.
Qed.

Lemma first_byte_not (s t : string) (c x : ascii) :
  IndexByteString s c < 0 -> Ascii.eqb x c = false ->
  match byte_at (s ++ String x t) 0 with
  | Some b => Ascii.eqb b c
  | None => false
  end = false.
Proof.
  intros Hs Hx. destruct s as [|a s].
  - exact Hx.
  - change (String a s ++ String x t) with (String a (s ++ String x t)).
    unfold byte_at. change (Z.to_nat 0) with 0%nat. cbn [String.get].
    simpl in Hs. destruct (Ascii.eqb a c); [lia | reflexivity].
Qed.

(** [SplitHostPort] undoes the joining of a host and a port with a colon,
    when neither holds a colon or a square bracket. *)
Lemma SplitHostPort_join (host port : string) :
  Resolver.plain host = true -> Resolver.plain port = true ->
  SplitHostPort (host ++ ":" ++ port) = (host, port, None).
Proof.
  unfold Resolver.plain. intros Hh Hp.
  apply andb_prop in Hh as [Hh Hh3]. apply andb_prop in Hh as [Hh1 Hh2].
  apply andb_prop in Hp as [Hp Hp3]. apply andb_prop in Hp as [Hp1 Hp2].
  apply Z.ltb_lt in Hh1, Hh2, Hh3, Hp1, Hp2, Hp3.
  unfold SplitHostPort.
  change (host ++ ":" ++ port) with (host ++ String ":" port).
  rewrite (last_separator host port ":" Hp1).
  pose proof (len_nonneg host) as Hn.
  destruct (Z.ltb_spec (len host) 0); [lia|].
  rewrite (first_byte_not host port "[" ":" Hh2 eq_refl).
  rewrite slice_head.
  destruct (Z.leb_spec 0 (IndexByteString host ":")); [lia|].
  rewrite slice_from_0.
  assert (Hopen : IndexByteString (host ++ String ":" port) "[" < 0).
  { apply IndexByteString_app_absent; [assumption|].
    now apply IndexByteString_cons_absent. }
  assert (Hclose : IndexByteString (host ++ String ":" port) "]" < 0).
  { apply IndexByteString_app_absent; [assumption|].
    now apply IndexByteString_cons_absent. }
  destruct (Z.leb_spec 0 (IndexByteString (host ++ String ":" port) "["));
    [lia|].
  destruct (Z.leb_spec 0 (IndexByteString (host ++ String ":" port) "]"));
    [lia|].
  replace (host ++ String ":" port) with ((host ++ ":") ++ port)
    by apply app_assoc_string.
  replace (len host + 1) with (len (host ++ ":"))
    by (rewrite len_app; reflexivity).
  now rewrite slice_from_tail.
Qed.

(** Without a colon [SplitHostPort] reports the missing port, in the words
    the resolver looks for. *)
Lemma SplitHostPort_no_port (name : string) :
  IndexByteString name ":" < 0 ->
  SplitHostPort name = addrErr name missingPort.
Proof.
  intros Hn. unfold SplitHostPort. now rewrite (last_absent name ":" Hn).
Qed.

Lemma missing_port_suffix (addr : string) :
  HasSuffix (Error (mkAddrError missingPort addr)) "missing port in address"
  = true.
Proof.
  unfold Error. cbn [Addr Err]. destruct (String.eqb addr "").
  - reflexivity.
  - rewrite <- !app_assoc_string. apply HasSuffix_app.
Qed.

End GoNetFacts.

(** ** Resolver: the steps one by one *)

Module ResolverSteps.
Import GoString GoNet Resolver GoNetFacts.

Local Ltac split_cases :=
  repeat match goal with
    | |- context [match ?x with _ => _ end] => destruct x eqn:?
    end.

Lemma splitDefaultPort_explicit (host port : string) :
  plain host = true -> plain port = true ->
  splitDefaultPort (host ++ ":" ++ port) = (host, port, None, false).
Proof.
  intros Hh Hp. unfold splitDefaultPort.
  now rewrite (SplitHostPort_join host port Hh Hp).
Qed.

Lemma splitDefaultPort_default (name : string) :
  plain name = true ->
  splitDefaultPort name = (name, "8448", None, true).
Proof.
  intros Hn. unfold splitDefaultPort.
  assert (Hcolon : IndexByteString name ":" < 0).
  { unfold plain in Hn. apply andb_prop in Hn as [Hn _].
    apply andb_prop in Hn as [Hn _]. now apply Z.ltb_lt. }
  rewrite (SplitHostPort_no_port name Hcolon). unfold addrErr.
  rewrite missing_port_suffix.
  change (name ++ ":8448") with (name ++ ":" ++ "8448").
  now rewrite (SplitHostPort_join name "8448" Hn eq_refl).
Qed.

Lemma srvUrl_trailing_dot (target : string) (port : N) :
  srvUrl (mkSRV (target ++ ".") port)
  = Some ("https://" ++ target ++ ":" ++ itoa port).
Proof.
  unfold srvUrl. cbn [Target Port]. rewrite len_app.
  pose proof (len_nonneg target) as Hn. change (len ".") with 1.
  destruct (Z.eqb_spec (len target + 1) 0); [lia|].
  replace (len target + 1 - 1) with (len target) by lia.
  now rewrite slice_from_tail, slice_head.
Qed.

(** X1: a name written [host:port], neither part holding a colon or a
    bracket, whose host is not an IP literal and which is not cached, is
    resolved to [https://host:port] with [host] as the host to use, and
    that url is cached under the whole input; no well-known document and
    no SRV record has any part in it. *)
Theorem explicit_port_resolution (W : World) (now : Z)
    (cache : gmap string (string * Z)) (host port : string) :
  plain host = true -> plain port = true ->
  is_IP W host = false ->
  Cache_Get cache now (host ++ ":" ++ port) = None ->
  GetServerApiUrl W now cache (host ++ ":" ++ port)
  = (Return ("https://" ++ host ++ ":" ++ port) host None,
     Cache_Set cache now (host ++ ":" ++ port)
       ("https://" ++ host ++ ":" ++ port)).
Proof.
  intros Hh Hp Hip Hmiss. unfold GetServerApiUrl.
  rewrite Hmiss, (splitDefaultPort_explicit host port Hh Hp), Hip.
  reflexivity.
Qed.

Lemma explicit_port_resolution_witness :
  GetServerApiUrl delegatingWorld 0 ∅ ("example.com" ++ ":" ++ "8449")
  = (Return ("https://" ++ "example.com" ++ ":" ++ "8449") "example.com" None,
     Cache_Set ∅ 0 ("example.com" ++ ":" ++ "8449")
       ("https://" ++ "example.com" ++ ":" ++ "8449")).
Proof.
  apply (explicit_port_resolution delegatingWorld 0 ∅ "example.com" "8449");
    vm_compute; reflexivity.
Defined.

(** X2: whenever the host part that [SplitHostPort] parses out of the
    input, the default port appended when none is given, is an IP literal,
    the url is made of the parsed host and port and the host to use is the
    input exactly as it was written: an explicit port stays part of it,
    and so do the brackets of an IPv6 literal, which the url does not
    carry. *)
Theorem ip_literal_resolution (W : World) (now : Z)
    (cache : gmap string (string * Z)) (hostname h p : string)
    (defPort : bool) :
  splitDefaultPort hostname = (h, p, None, defPort) ->
  is_IP W h = true ->
  Cache_Get cache now hostname = None ->
  GetServerApiUrl W now cache hostname
  = (Return ("https://" ++ h ++ ":" ++ p) hostname None,
     Cache_Set cache now hostname ("https://" ++ h ++ ":" ++ p)).
Proof.
  intros Hsplit Hip Hmiss. unfold GetServerApiUrl.
  now rewrite Hmiss, Hsplit, Hip.
Qed.

Lemma ip_literal_resolution_witness :
  GetServerApiUrl ipv6World 0 ∅ "[::1]:8448"
  = (Return ("https://" ++ "::1" ++ ":" ++ "8448") "[::1]:8448" None,
     Cache_Set ∅ 0 "[::1]:8448" ("https://" ++ "::1" ++ ":" ++ "8448")).
Proof.
  apply (ip_literal_resolution ipv6World 0 ∅ "[::1]:8448" "::1" "8448" false);
    vm_compute; reflexivity.
Defined.

(** An IPv4 literal with and without port, an IPv6 literal in brackets
    without port, and one without brackets, which [SplitHostPort]
    rejects. *)
Example ip_literal_forms :
  fst (GetServerApiUrl ipv6World 0 ∅ "1.2.3.4:443")
  = Return "https://1.2.3.4:443" "1.2.3.4:443" None
  /\ fst (GetServerApiUrl ipv6World 0 ∅ "1.2.3.4")
     = Return "https://1.2.3.4:8448" "1.2.3.4" None
  /\ fst (GetServerApiUrl ipv6World 0 ∅ "[::1]")
     = Return "https://::1:8448" "[::1]" None
  /\ fst (GetServerApiUrl ipv6World 0 ∅ "::1")
     = Return "" ""
         (Some (mkAddrError "too many colons in address" "::1")).
Proof. repeat split; vm_compute; reflexivity. Qed.

(** X3: a name without port that is not an IP literal, for which the
    well-known request fails, is resolved through the first SRV record of
    the name: the url is made of its target, the trailing period removed,
    and its port; the host to use is the name.  Later records are not
    looked at. *)
Theorem srv_resolution (W : World) (now : Z)
    (cache : gmap string (string * Z)) (name target : string) (port : N)
    (others : list SRV) :
  plain name = true ->
  is_IP W name = false ->
  Cache_Get cache now name = None ->
  http_Get W ("https://" ++ name ++ "/.well-known/matrix/server") = None ->
  net_LookupSRV W name = mkSRV (target ++ ".") port :: others ->
  GetServerApiUrl W now cache name
  = (Return ("https://" ++ target ++ ":" ++ itoa port) name None,
     Cache_Set cache now name ("https://" ++ target ++ ":" ++ itoa port)).
Proof.
  intros Hn Hip Hmiss Hwk Hsrv. unfold GetServerApiUrl.
  rewrite Hmiss, (splitDefaultPort_default name Hn), Hip. cbn [negb].
  rewrite Hwk, Hsrv, srvUrl_trailing_dot. reflexivity.
Qed.

Lemma srv_resolution_witness :
  GetServerApiUrl srvWorld 0 ∅ "matrix.org"
  = (Return ("https://" ++ "matrix-federation.matrix.org" ++ ":" ++ itoa 8448)
       "matrix.org" None,
     Cache_Set ∅ 0 "matrix.org"
       ("https://" ++ "matrix-federation.matrix.org" ++ ":" ++ itoa 8448)).
Proof.
  apply (srv_resolution srvWorld 0 ∅ "matrix.org"
           "matrix-federation.matrix.org" 8448 []);
    vm_compute; reflexivity.
Defined.

(** X4: the same name when there is no SRV record either: the url is
    [https://name:8448] and the host to use is the name. *)
Theorem fallback_resolution (W : World) (now : Z)
    (cache : gmap string (string * Z)) (name : string) :
  plain name = true ->
  is_IP W name = false ->
  Cache_Get cache now name = None ->
  http_Get W ("https://" ++ name ++ "/.well-known/matrix/server") = None ->
  net_LookupSRV W name = [] ->
  GetServerApiUrl W now cache name
  = (Return ("https://" ++ name ++ ":8448") name None,
     Cache_Set cache now name ("https://" ++ name ++ ":8448")).
Proof.
  intros Hn Hip Hmiss Hwk Hsrv. unfold GetServerApiUrl.
  rewrite Hmiss, (splitDefaultPort_default name Hn), Hip. cbn [negb].
  rewrite Hwk, Hsrv. reflexivity.
Qed.

Lemma fallback_resolution_witness :
  GetServerApiUrl quietWorld 0 ∅ "matrix.org"
  = (Return ("https://" ++ "matrix.org" ++ ":8448") "matrix.org" None,
     Cache_Set ∅ 0 "matrix.org" ("https://" ++ "matrix.org" ++ ":8448")).
Proof.
  apply (fallback_resolution quietWorld 0 ∅ "matrix.org");
    vm_compute; reflexivity.
Defined.

(** X5: a name without port whose well-known document delegates to
    [wh:wp], with [wh] not an IP literal, is resolved to [https://wh:wp]
    with [wh] as the host to use; the SRV records of either name have no
    part in it. *)
Theorem delegation_explicit_port (W : World) (now status : Z)
    (cache : gmap string (string * Z)) (name body wh wp : string) :
  plain name = true -> is_IP W name = false ->
  Cache_Get cache now name = None ->
  http_Get W ("https://" ++ name ++ "/.well-known/matrix/server")
  = Some (status, Some body) ->
  status = 200 ->
  json_ServerAddr W body = Some (wh ++ ":" ++ wp) ->
  plain wh = true -> plain wp = true -> is_IP W wh = false ->
  GetServerApiUrl W now cache name
  = (Return ("https://" ++ wh ++ ":" ++ wp) wh None,
     Cache_Set cache now name ("https://" ++ wh ++ ":" ++ wp)).
Proof.
  intros Hn Hip Hmiss Hwk -> Hjson Hwh Hwp Hwip. unfold GetServerApiUrl.
  rewrite Hmiss, (splitDefaultPort_default name Hn), Hip. cbn [negb].
  rewrite Hwk. change (200 =? StatusOK) with true. cbv iota.
  rewrite Hjson.
  assert (Hne : String.eqb (wh ++ ":" ++ wp) "" = false).
  { destruct wh; reflexivity. }
  rewrite Hne. cbn [negb].
  rewrite (splitDefaultPort_explicit wh wp Hwh Hwp), Hwip. reflexivity.
Qed.

Lemma delegation_explicit_port_witness :
  GetServerApiUrl delegatingWorld 0 ∅ "delegated.test"
  = (Return ("https://" ++ "actual.test" ++ ":" ++ "443") "actual.test" None,
     Cache_Set ∅ 0 "delegated.test"
       ("https://" ++ "actual.test" ++ ":" ++ "443")).
Proof.
  apply (delegation_explicit_port delegatingWorld 0 200 ∅ "delegated.test"
           "m.server: actual.test:443" "actual.test" "443");
    vm_compute; reflexivity.
Defined.

(** X6: when the delegated address has no port and is not an IP literal,
    and there is no SRV record for the delegated name, the url is
    [https://wh:8448] with [wh] as the host to use: the SRV records of the
    original name are not consulted once a delegation was read. *)
Theorem delegation_without_port (W : World) (now status : Z)
    (cache : gmap string (string * Z)) (name body wh : string) :
  plain name = true -> is_IP W name = false ->
  Cache_Get cache now name = None ->
  http_Get W ("https://" ++ name ++ "/.well-known/matrix/server")
  = Some (status, Some body) ->
  status = 200 ->
  json_ServerAddr W body = Some wh ->
  wh <> "" -> plain wh = true -> is_IP W wh = false ->
  net_LookupSRV W wh = [] ->
  GetServerApiUrl W now cache name
  = (Return ("https://" ++ wh ++ ":8448") wh None,
     Cache_Set cache now name ("https://" ++ wh ++ ":8448")).
Proof.
  intros Hn Hip Hmiss Hwk -> Hjson Hne Hwh Hwip Hsrv. unfold GetServerApiUrl.
  rewrite Hmiss, (splitDefaultPort_default name Hn), Hip. cbn [negb].
  rewrite Hwk. change (200 =? StatusOK) with true. cbv iota.
  rewrite Hjson.
  destruct (String.eqb_spec wh "") as [|_]; [contradiction|]. cbn [negb].
  rewrite (splitDefaultPort_default wh Hwh), Hwip. cbn [negb].
  rewrite Hsrv. reflexivity.
Qed.

Lemma delegation_without_port_witness :
  GetServerApiUrl portlessDelegation 0 ∅ "delegated.test"
  = (Return ("https://" ++ "hosted.test" ++ ":8448") "hosted.test" None,
     Cache_Set ∅ 0 "delegated.test" ("https://" ++ "hosted.test" ++ ":8448")).
Proof.
  apply (delegation_without_port portlessDelegation 0 200 ∅ "delegated.test"
           "m.server: hosted.test" "hosted.test");
    try (vm_compute; reflexivity).
  discriminate.
Defined.

(** X7: the function returns an error only for an input that is not
    cached and that [SplitHostPort] rejects, also after the default port
    was appended; the error is that one, both strings returned are empty
    and the cache is left as it was. *)
Theorem error_is_parse_error (W : World) (now : Z)
    (cache cache' : gmap string (string * Z)) (hostname url sni : string)
    (e : AddrError) :
  GetServerApiUrl W now cache hostname = (Return url sni (Some e), cache') ->
  url = "" /\ sni = "" /\ cache' = cache
  /\ Cache_Get cache now hostname = None
  /\ snd (fst (splitDefaultPort hostname)) = Some e.
Proof.
  unfold GetServerApiUrl. cbv zeta.
  split_cases; intros Heq; try discriminate Heq.
  injection Heq as <- <- <- <-. auto.
Qed.

Lemma error_is_parse_error_witness :
  "" = "" /\ "" = "" /\ (∅ : gmap string (string * Z)) = ∅
  /\ Cache_Get ∅ 0 "::1" = None
  /\ snd (fst (splitDefaultPort "::1"))
     = Some (mkAddrError "too many colons in address" "::1").
Proof.
  apply (error_is_parse_error quietWorld 0 ∅ ∅ "::1" "" ""
           (mkAddrError "too many colons in address" "::1")).
  vm_compute. reflexivity.
Defined.

(** X8: the function panics only at the slice of the SRV answer it
    received: when the first record of the answer for the input name, or
    of the answer for the host part of the address that the well-known
    document served for the input delegates to, has an empty target; and
    then the cache is left as it was. *)
Theorem panic_needs_empty_target (W : World) (now : Z)
    (cache cache' : gmap string (string * Z)) (hostname : string) :
  GetServerApiUrl W now cache hostname = (Panics, cache') ->
  cache' = cache
  /\ ((exists port others,
         net_LookupSRV W hostname = mkSRV "" port :: others)
      \/ (exists c addr port others,
            http_Get W ("https://" ++ hostOf hostname
                        ++ "/.well-known/matrix/server")
            = Some (200, Some c)
            /\ json_ServerAddr W c = Some addr
            /\ net_LookupSRV W (hostOf addr) = mkSRV "" port :: others)).
Proof.
  assert (Hsrv : forall a l, srvUrl a = None ->
            exists port others, a :: l = mkSRV "" port :: others).
  { intros [t q] l. unfold srvUrl. cbn [Target Port].
    destruct t as [|c t]; [intros _; now exists q, l|].
    destruct (Z.eqb_spec (len (String c t)) 0) as [H0|_]; [|discriminate].
    unfold len in H0. simpl in H0. lia. }
  unfold GetServerApiUrl.
  destruct (Cache_Get cache now hostname); [discriminate|].
  assert (Hh : hostOf hostname = fst (fst (fst (splitDefaultPort hostname))))
    by (unfold hostOf; now destruct (splitDefaultPort hostname) as [[[? ?] ?] ?]).
  rewrite Hh. clear Hh.
  destruct (splitDefaultPort hostname) as [[[h p] err] defPort].
  cbn [fst].
  destruct err as [e|]; [discriminate|].
  destruct (is_IP W h); [discriminate|].
  destruct defPort; cbn [negb]; [|discriminate].
  assert (Hstep4 : forall R : Prop,
    match net_LookupSRV W hostname with
    | [] => (Return (urlOf h p) h None, Cache_Set cache now hostname (urlOf h p))
    | a :: _ =>
        match srvUrl a with
        | Some url0 => (Return url0 h None, Cache_Set cache now hostname url0)
        | None => (Panics, cache)
        end
    end = (Panics, cache') ->
    cache' = cache
    /\ ((exists port others,
           net_LookupSRV W hostname = mkSRV "" port :: others) \/ R)).
  { intros R. destruct (net_LookupSRV W hostname) as [|a l]; [discriminate|].
    destruct (srvUrl a) eqn:Ha; [discriminate|].
    intros [= <-]. split; [reflexivity|]. left. now apply Hsrv. }
  destruct (http_Get W _) as [[status [c|]]|] eqn:Hget; try apply Hstep4.
  destruct (Z.eqb_spec status StatusOK) as [->|_]; try apply Hstep4.
  destruct (json_ServerAddr W c) as [addr|] eqn:Hjson; try apply Hstep4.
  destruct (String.eqb_spec addr "") as [->|Hne]; cbn [negb];
    try apply Hstep4.
  assert (Hwh : hostOf addr = fst (fst (fst (splitDefaultPort addr))))
    by (unfold hostOf; now destruct (splitDefaultPort addr) as [[[? ?] ?] ?]).
  destruct (splitDefaultPort addr) as [[[wkHost wkPort] err4] wkDefPort].
  cbn [fst] in Hwh.
  destruct err4; try apply Hstep4.
  destruct (is_IP W wkHost); [discriminate|].
  destruct wkDefPort; cbn [negb]; [|discriminate].
  destruct (net_LookupSRV W wkHost) as [|a l] eqn:Hl; [discriminate|].
  destruct (srvUrl a) eqn:Ha; [discriminate|].
  intros [= <-]. split; [reflexivity|]. right.
  destruct (Hsrv a l Ha) as (port & others & Heq).
  exists c, addr, port, others. rewrite Hwh, Hl. auto.
Qed.

Lemma panic_needs_empty_target_witness :
  (∅ : gmap string (string * Z)) = ∅
  /\ ((exists port others,
         net_LookupSRV emptyTargetWorld "matrix.org"
         = mkSRV "" port :: others)
      \/ (exists c addr port others,
            http_Get emptyTargetWorld
              ("https://" ++ hostOf "matrix.org"
               ++ "/.well-known/matrix/server")
            = Some (200, Some c)
            /\ json_ServerAddr emptyTargetWorld c = Some addr
            /\ net_LookupSRV emptyTargetWorld (hostOf addr)
               = mkSRV "" port :: others)).
Proof.
  apply (panic_needs_empty_target emptyTargetWorld 0 ∅ ∅ "matrix.org").
  vm_compute. reflexivity.
Defined.

(** X9: a well-known answer that cannot be used, because its status is
    not 200, its body cannot be read, the body is not the expected JSON or
    names no server, leaves the call with the result it has when the
    request fails. *)
Theorem unusable_well_known_is_ignored (W : World) (now status : Z)
    (cache : gmap string (string * Z)) (hostname : string)
    (body : option string) :
  http_Get W ("https://" ++ hostOf hostname ++ "/.well-known/matrix/server")
  = Some (status, body) ->
  (status <> 200 \/ body = None
   \/ exists c, body = Some c
        /\ (json_ServerAddr W c = None \/ json_ServerAddr W c = Some "")) ->
  GetServerApiUrl W now cache hostname
  = GetServerApiUrl (withoutWellKnown W) now cache hostname.
Proof.
  intros Hget Hbad. unfold GetServerApiUrl, hostOf in *.
  destruct (Cache_Get cache now hostname); [reflexivity|].
  destruct (splitDefaultPort hostname) as [[[h p] err] defPort].
  destruct err; [reflexivity|].
  cbn [withoutWellKnown is_IP http_Get net_LookupSRV json_ServerAddr].
  destruct (is_IP W h); [reflexivity|].
  destruct defPort; [|reflexivity]. cbn [negb].
  rewrite Hget.
  destruct Hbad as [Hs | [-> | (c & -> & [Hj | Hj])]].
  - destruct body; [|reflexivity].
    destruct (Z.eqb_spec status StatusOK) as [Heq|_]; [|reflexivity].
    now elim Hs.
  - reflexivity.
  - destruct (status =? StatusOK); [|reflexivity]. now rewrite Hj.
  - destruct (status =? StatusOK); [|reflexivity]. now rewrite Hj.
Qed.

Lemma unusable_well_known_is_ignored_witness :
  GetServerApiUrl notFoundWorld 0 ∅ "matrix.org"
  = GetServerApiUrl (withoutWellKnown notFoundWorld) 0 ∅ "matrix.org".
Proof.
  apply (unusable_well_known_is_ignored notFoundWorld 0 404 ∅ "matrix.org"
           (Some "not found")).
  - vm_compute. reflexivity.
  - left. discriminate.
Defined.

(** X10: a call changes the cache at most under its own input: what is
    stored under any other name stays as it was. *)
Theorem other_names_untouched (W : World) (now : Z)
    (cache : gmap string (string * Z)) (hostname k : string) :
  k <> hostname ->
  snd (GetServerApiUrl W now cache hostname) !! k = cache !! k.
Proof.
  intros Hne.
  destruct (Cache_Get cache now hostname) as [url|] eqn:Hget.
  - now rewrite (ResolverFacts.resolve_hit W _ _ _ _ Hget).
  - pose proof (ResolverFacts.resolve_miss_cases W now cache hostname Hget)
      as Hpost.
    destruct (GetServerApiUrl W now cache hostname) as [r cache'].
    cbn [snd]. unfold miss_post in Hpost.
    destruct r as [url sni [e|]|]; try now subst cache'.
    destruct Hpost as (-> & _ & _). unfold Cache_Set.
    apply lookup_insert_ne. congruence.
Qed.

Lemma other_names_untouched_witness :
  snd (GetServerApiUrl srvWorld 9 filledCache "matrix.org")
    !! "example.com:8449"
  = filledCache !! "example.com:8449".
Proof.
  apply (other_names_untouched srvWorld 9 filledCache "matrix.org"
           "example.com:8449").
  discriminate.
Defined.

Lemma Cache_Get_expired (c : gmap string (string * Z)) (now now' : Z)
    (k v : string) :
  0 <= now -> now + defaultExpiration < now' ->
  Cache_Get (Cache_Set c now k v) now' k = None.
Proof.
  intros Hpos Hlate. unfold Cache_Get, Cache_Set. rewrite lookup_insert_eq.
  change (0 <? defaultExpiration) with true. cbv iota.
  assert (Hd : 0 < defaultExpiration) by reflexivity.
  destruct (Z.ltb_spec 0 (now + defaultExpiration)); [|lia].
  destruct (Z.ltb_spec (now + defaultExpiration) now'); [reflexivity | lia].
Qed.

(** What a call that misses the cache returns does not depend on what the
    cache holds. *)
Lemma miss_result_ignores_cache (W : World) (now now' : Z)
    (c1 c2 : gmap string (string * Z)) (hostname : string) :
  Cache_Get c1 now hostname = None ->
  Cache_Get c2 now' hostname = None ->
  fst (GetServerApiUrl W now c1 hostname)
  = fst (GetServerApiUrl W now' c2 hostname).
Proof.
  intros H1 H2. unfold GetServerApiUrl. rewrite H1, H2. cbv zeta.
  split_cases; reflexivity.
Qed.

(** X11: once more than an hour has passed since a call filled the cache
    for a name, the entry is no longer used: the next call for the name
    returns what a call with an empty cache returns, resolved against the
    outside as it is then. *)
Theorem entry_expires_after_an_hour (W W' : World) (now now' : Z)
    (cache cache' : gmap string (string * Z)) (h url sni : string) :
  0 <= now ->
  Cache_Get cache now h = None ->
  GetServerApiUrl W now cache h = (Return url sni None, cache') ->
  now + 1 * Hour < now' ->
  fst (GetServerApiUrl W' now' cache' h)
  = fst (GetServerApiUrl W' now' ∅ h).
Proof.
  intros Hpos Hmiss Hfirst Hlate.
  pose proof (ResolverFacts.resolve_miss_cases W now cache h Hmiss) as Hpost.
  rewrite Hfirst in Hpost. destruct Hpost as (-> & _ & _).
  apply miss_result_ignores_cache.
  - now apply Cache_Get_expired.
  - unfold Cache_Get. now rewrite lookup_empty.
Qed.

Lemma entry_expires_after_an_hour_witness :
  fst (GetServerApiUrl srvWorld (Hour + 1)
         (snd (GetServerApiUrl quietWorld 0 ∅ "matrix.org")) "matrix.org")
  = fst (GetServerApiUrl srvWorld (Hour + 1) ∅ "matrix.org").
Proof.
  apply (entry_expires_after_an_hour quietWorld srvWorld 0 (Hour + 1) ∅
           (snd (GetServerApiUrl quietWorld 0 ∅ "matrix.org")) "matrix.org"
           "https://matrix.org:8448" "matrix.org").
  - lia.
  - vm_compute. reflexivity.
  - vm_compute. reflexivity.
  - vm_compute. reflexivity.
Defined.

End ResolverSteps.

(** ** Federated fetcher: what a call may do *)

Module FetcherSteps.
Import Fetcher.

Local Ltac split_cases :=
  repeat match goal with
    | |- context [match ?x with _ => _ end] => destruct x eqn:?
    end.

(** The log of [DialTLS] is one of three. *)
Lemma DialTLS_log (N : Network) (realHost network addr : string) :
  let log := snd (DialTLS N realHost network addr) in
  log = [] \/ log = [mkTlsConfig realHost true]
  \/ log = [mkTlsConfig realHost true; mkTlsConfig "" true].
Proof. unfold DialTLS. split_cases; cbn; auto. Qed.

(** X12: whatever the network does, a call attempts at most two
    handshakes: the first with the given host as server name, the second
    without server name; and every handshake skips the verification of the
    peer's certificate. *)
Theorem handshakes_of_a_call (N : Network) (url realHost : string) :
  (snd (FederatedGet N url realHost) = []
   \/ snd (FederatedGet N url realHost) = [mkTlsConfig realHost true]
   \/ snd (FederatedGet N url realHost)
      = [mkTlsConfig realHost true; mkTlsConfig "" true])
  /\ Forall (fun cfg => InsecureSkipVerify cfg = true)
            (snd (FederatedGet N url realHost)).
Proof.
  assert (Hlog : snd (FederatedGet N url realHost) = []
   \/ snd (FederatedGet N url realHost) = [mkTlsConfig realHost true]
   \/ snd (FederatedGet N url realHost)
      = [mkTlsConfig realHost true; mkTlsConfig "" true]).
  { unfold FederatedGet, RoundTrip.
    destruct (url_Parse N url) as [u|e]; [|now left]. cbn [URL].
    destruct (String.eqb (Scheme u) "https").
    - pose proof (DialTLS_log N realHost "tcp" (HostPort u)) as Hd.
      cbv zeta in Hd.
      destruct (DialTLS N realHost "tcp" (HostPort u)) as [[conn err] log].
      cbn [snd] in Hd.
      destruct conn as [conn|];
        [destruct (round_trip N conn _) | destruct err]; exact Hd.
    - destruct (plain_round_trip N _); now left. }
  split; [exact Hlog|].
  destruct Hlog as [-> | [-> | ->]]; repeat constructor.
Qed.

Lemma DialTLS_shape (N : Network) (realHost network addr : string) :
  (exists conn, fst (DialTLS N realHost network addr) = (Some conn, None))
  \/ (exists err, fst (DialTLS N realHost network addr) = (None, Some err)).
Proof.
  unfold DialTLS.
  destruct (dial N network addr) as [rawconn|e]; [|right; now exists e].
  destruct (handshake N rawconn 0%nat _) as [e1|].
  - destruct (handshake N rawconn 1%nat _) as [e2|]; right; eauto.
  - left. eauto.
Qed.

(** X13: the call returns exactly one of a response and an error. *)
Theorem response_or_error (N : Network) (url realHost : string) :
  (exists resp, fst (FederatedGet N url realHost) = (Some resp, None))
  \/ (exists err, fst (FederatedGet N url realHost) = (None, Some err)).
Proof.
  unfold FederatedGet, RoundTrip.
  destruct (url_Parse N url) as [u|e]; [|right; now exists e]. cbn [URL].
  destruct (String.eqb (Scheme u) "https").
  - destruct (DialTLS_shape N realHost "tcp" (HostPort u))
      as [[conn Hd] | [err Hd]];
      destruct (DialTLS N realHost "tcp" (HostPort u)) as [[c e] log];
      cbn [fst] in Hd; injection Hd as -> ->.
    + destruct (round_trip N conn _) as [resp|err]; [left | right]; eauto.
    + right. eauto.
  - destruct (plain_round_trip N _) as [resp|err]; [left | right]; eauto.
Qed.

(** X14: over https a response is only ever returned after the first
    handshake, the one carrying the given host as server name, succeeded:
    the response is the peer's answer to a GET whose [Host] is the given
    host and whose user agent is [matrix-media-repo], sent over that
    connection. *)
Theorem response_needs_first_handshake (N : Network) (url realHost : string)
    (u : Url) (resp : Response) (log : list TlsConfig) :
  url_Parse N url = inl u ->
  Scheme u = "https" ->
  FederatedGet N url realHost = ((Some resp, None), log) ->
  exists rawconn,
    dial N "tcp" (HostPort u) = inl rawconn
    /\ handshake N rawconn 0%nat (mkTlsConfig realHost true) = None
    /\ log = [mkTlsConfig realHost true]
    /\ round_trip N (tls_Client rawconn (mkTlsConfig realHost true))
         (mkRequest "GET" u realHost
            [("Host", realHost); ("User-Agent", "matrix-media-repo")])
       = inl resp.
Proof.
  intros Hurl Hscheme. unfold FederatedGet, RoundTrip, DialTLS.
  rewrite Hurl. cbn [URL]. rewrite Hscheme, String.eqb_refl.
  destruct (dial N "tcp" (HostPort u)) as [rawconn|e]; [|discriminate].
  destruct (handshake N rawconn 0%nat _) eqn:Hfirst.
  - destruct (handshake N rawconn 1%nat _); discriminate.
  - destruct (round_trip N _ _) as [r|e] eqn:Hrt; [|discriminate].
    intros [= <- <-]. exists rawconn. auto.
Qed.

Lemma response_needs_first_handshake_witness :
  exists rawconn,
    dial friendlyPeer "tcp" "peer.test:8448" = inl rawconn
    /\ handshake friendlyPeer rawconn 0%nat (mkTlsConfig "peer.test" true)
       = None
    /\ [mkTlsConfig "peer.test" true] = [mkTlsConfig "peer.test" true]
    /\ round_trip friendlyPeer
         (tls_Client rawconn (mkTlsConfig "peer.test" true))
         (mkRequest "GET"
            (mkUrl "https://peer.test:8448/x" "https" "peer.test:8448")
            "peer.test"
            [("Host", "peer.test"); ("User-Agent", "matrix-media-repo")])
       = inl (mkResponse 200 "media").
Proof.
  apply (response_needs_first_handshake friendlyPeer
           "https://peer.test:8448/x" "peer.test"
           (mkUrl "https://peer.test:8448/x" "https" "peer.test:8448")
           (mkResponse 200 "media") [mkTlsConfig "peer.test" true]);
    reflexivity.
Defined.

(** X29: when the first handshake succeeds, one handshake is all there is,
    the GET goes over that connection with the given host as [Host] and
    [matrix-media-repo] as user agent, and the call returns what the round
    trip gives: the response, or its error.  (Stated and proved as
    [FetcherFacts.first_handshake_success].) *)
Lemma first_handshake_success_witness :
  FederatedGet friendlyPeer "https://peer.test:8448/x" "peer.test"
  = (match round_trip friendlyPeer
             (tls_Client 7%nat (mkTlsConfig "peer.test" true))
             (mkRequest "GET"
                (mkUrl "https://peer.test:8448/x" "https" "peer.test:8448")
                "peer.test"
                [("Host", "peer.test"); ("User-Agent", "matrix-media-repo")])
     with
     | inl resp => (Some resp, None)
     | inr err => (None, Some err)
     end, [mkTlsConfig "peer.test" true]).
Proof.
  apply (FetcherFacts.first_handshake_success friendlyPeer
           "https://peer.test:8448/x" "peer.test"
           (mkUrl "https://peer.test:8448/x" "https" "peer.test:8448")
           7%nat);
    reflexivity.
Defined.

(** X15: when the connection cannot be made, the error of the dial is
    returned and no handshake is attempted. *)
Theorem dial_error_is_returned (N : Network) (url realHost : string)
    (u : Url) (e : error) :
  url_Parse N url = inl u ->
  Scheme u = "https" ->
  dial N "tcp" (HostPort u) = inr e ->
  FederatedGet N url realHost = ((None, Some e), []).
Proof.
  intros Hurl Hscheme Hdial. unfold FederatedGet, RoundTrip, DialTLS.
  rewrite Hurl. cbn [URL]. now rewrite Hscheme, String.eqb_refl, Hdial.
Qed.

Lemma dial_error_is_returned_witness :
  FederatedGet noRoute "https://peer.test:8448/x" "peer.test"
  = ((None, Some "dial tcp: no route to host"), []).
Proof.
  apply (dial_error_is_returned noRoute "https://peer.test:8448/x"
           "peer.test"
           (mkUrl "https://peer.test:8448/x" "https" "peer.test:8448"));
    reflexivity.
Defined.

End FetcherSteps.

(** ** Datastore registry: the two functions side by side *)

Module StorageSteps.
Import types Storage.

Section AnyStore.
Context {Db : Type} `{MediaStore Db}.

(** X16: the function that is handed the media store surfaces a lookup
    error other than not-found: it returns no datastore and that error,
    and touches neither the database nor the entropy source. *)
Theorem sibling_surfaces_lookup_error (db : Db) (entropy : list N)
    (basePath : string) (d : option Datastore) (e : error) :
  GetDatastoreByUri db basePath = (d, Some e) ->
  e <> ErrNoRows ->
  getOrCreateDatastoreWithMediaService db entropy basePath
  = ((None, Some e), db, entropy).
Proof.
  intros Hget Hne. unfold getOrCreateDatastoreWithMediaService.
  rewrite Hget. destruct e; [contradiction | reflexivity | reflexivity].
Qed.

(** X17: whenever the lookup succeeds or reports not-found, the two
    functions do the same: the one handed the media store is the other
    one at type [file]. *)
Theorem siblings_agree (db : Db) (entropy : list N) (basePath : string) :
  (forall d e, GetDatastoreByUri db basePath = (d, Some e) -> e = ErrNoRows) ->
  getOrCreateDatastoreWithMediaService db entropy basePath
  = GetOrCreateDatastoreOfType db entropy "file" basePath.
Proof.
  intros Hok.
  unfold getOrCreateDatastoreWithMediaService, GetOrCreateDatastoreOfType,
    GetOrCreateDatastoreOfType_among.
  destruct (GetDatastoreByUri db basePath) as [d [e|]] eqn:Hget;
    [|reflexivity].
  rewrite (Hok d e eq_refl). reflexivity.
Qed.

(** X18: when the lookup reports not-found and the identifier cannot be
    generated, both functions return that error and no datastore, and
    nothing is inserted. *)
Theorem entropy_failure_inserts_nothing (others : Db -> Db) (db : Db)
    (entropy entropy' : list N) (dsType dsUri id : string)
    (d0 : option Datastore) (e : error) :
  GetDatastoreByUri db dsUri = (d0, Some ErrNoRows) ->
  GenerateRandomString entropy 32 = ((id, Some e), entropy') ->
  GetOrCreateDatastoreOfType_among others db entropy dsType dsUri
  = ((None, Some e), db, entropy')
  /\ getOrCreateDatastoreWithMediaService db entropy dsUri
     = ((None, Some e), db, entropy').
Proof.
  intros Hget Hrand.
  unfold GetOrCreateDatastoreOfType_among,
    getOrCreateDatastoreWithMediaService.
  rewrite Hget. cbn [is_ErrNoRows]. now rewrite Hrand.
Qed.

(** X19: a record found for the uri is returned as it is, whatever type
    was asked for: the type argument is only used when a record is
    created.  Nothing is inserted and no identifier is generated. *)
Theorem found_record_ignores_type (others : Db -> Db) (db : Db)
    (entropy : list N) (dsType dsType' dsUri : string) (d : Datastore) :
  GetDatastoreByUri db dsUri = (Some d, None) ->
  GetOrCreateDatastoreOfType_among others db entropy dsType dsUri
  = ((Some d, None), db, entropy)
  /\ GetOrCreateDatastoreOfType_among others db entropy dsType' dsUri
     = GetOrCreateDatastoreOfType_among others db entropy dsType dsUri.
Proof.
  intros Hget. unfold GetOrCreateDatastoreOfType_among. now rewrite Hget.
Qed.

End AnyStore.

Lemma sibling_surfaces_lookup_error_witness :
  getOrCreateDatastoreWithMediaService (mkTable [] false) someEntropy "/tmp/a"
  = ((None, Some driverError), mkTable [] false, someEntropy).
Proof.
  apply (sibling_surfaces_lookup_error (mkTable [] false) someEntropy
           "/tmp/a" None driverError).
  - reflexivity.
  - discriminate.
Defined.

Lemma siblings_agree_witness :
  getOrCreateDatastoreWithMediaService emptyTable someEntropy "/tmp/a"
  = GetOrCreateDatastoreOfType emptyTable someEntropy "file" "/tmp/a".
Proof.
  apply (siblings_agree emptyTable someEntropy "/tmp/a").
  intros d e. cbn. intros [= _ <-]. reflexivity.
Defined.

Lemma entropy_failure_inserts_nothing_witness :
  GetOrCreateDatastoreOfType_among rival emptyTable [] "file" "/tmp/a"
  = ((None, Some (ErrOther "entropy source failed")), emptyTable, [])
  /\ getOrCreateDatastoreWithMediaService emptyTable [] "/tmp/a"
     = ((None, Some (ErrOther "entropy source failed")), emptyTable, []).
Proof.
  apply (entropy_failure_inserts_nothing rival emptyTable [] [] "file"
           "/tmp/a" "" None (ErrOther "entropy source failed"));
    reflexivity.
Defined.

Lemma found_record_ignores_type_witness :
  GetOrCreateDatastoreOfType_among (fun t => t) s3Table someEntropy "file"
    "/tmp/a"
  = ((Some (mkDatastore "S3S3S3S3S3S3S3S3S3S3S3S3S3S3S3S3" "s3" "/tmp/a"),
      None), s3Table, someEntropy)
  /\ GetOrCreateDatastoreOfType_among (fun t => t) s3Table someEntropy "s3"
       "/tmp/a"
     = GetOrCreateDatastoreOfType_among (fun t => t) s3Table someEntropy
         "file" "/tmp/a".
Proof.
  apply (found_record_ignores_type (fun t => t) s3Table someEntropy "file"
           "s3" "/tmp/a").
  reflexivity.
Defined.

End StorageSteps.

(** ** Thumbnailer: methods, frames and files *)

Module ThumbnailerSteps.
Import types Thumbnailer.

Local Ltac split_cases :=
  repeat match goal with
    | |- context [match ?x with _ => _ end] => destruct x eqn:?
    end.

Lemma thumbnailFrame_methods_iff (E : Env) (src : Image) (method : string)
    (width height : Z) :
  (exists img, thumbnailFrame E src method width height = inl img)
  <-> method = "scale" \/ method = "crop".
Proof.
  unfold thumbnailFrame.
  destruct (String.eqb_spec method "scale") as [->|Hs]; [split; eauto|].
  destruct (String.eqb_spec method "crop") as [->|Hc]; [split; eauto|].
  split.
  - intros [img Himg]. discriminate.
  - intros [?|?]; contradiction.
Qed.

(** X20: the frame transform succeeds for the methods [scale] and [crop]
    and for no other; any other method gives the error naming it. *)
Theorem thumbnailFrame_methods (E : Env) (src : Image) (method : string)
    (width height : Z) :
  ((exists img, thumbnailFrame E src method width height = inl img)
   <-> method = "scale" \/ method = "crop")
  /\ ((forall img, thumbnailFrame E src method width height <> inl img)
      -> thumbnailFrame E src method width height
         = inr ("unrecognized method: " ++ method)).
Proof.
  split; [apply thumbnailFrame_methods_iff|].
  unfold thumbnailFrame.
  destruct (String.eqb method "scale"); [intros Hno; now elim (Hno _ eq_refl)|].
  destruct (String.eqb method "crop"); [intros Hno; now elim (Hno _ eq_refl)|].
  reflexivity.
Qed.

(** X21: when the loop over the frames of an animation succeeds, the
    animation has as many frames as before; and unless there was no frame
    at all, the method was [scale] or [crop]. *)
Theorem frames_keep_their_number (E : Env) (g g' : list Image)
    (method : string) (width height : Z) :
  thumbnailFrames E g method width height = inl g' ->
  List.length g' = List.length g
  /\ (g <> [] -> method = "scale" \/ method = "crop").
Proof.
  revert g'. induction g as [|f rest IH]; intros g'; cbn [thumbnailFrames].
  - intros [= <-]. split; [reflexivity | congruence].
  - destruct (thumbnailFrame E f method width height) as [t|e] eqn:Hf;
      [|discriminate].
    destruct (thumbnailFrames E rest method width height) as [rest'|e];
      [|discriminate].
    intros [= <-]. destruct (IH rest' eq_refl) as [Hlen _].
    split; [cbn; now rewrite Hlen|]. intros _.
    apply (proj1 (thumbnailFrame_methods_iff E f method width height)).
    now exists t.
Qed.

Lemma frames_keep_their_number_witness :
  List.length [mkImage 10 10 "frame"; mkImage 10 10 "frame"]
  = List.length [mkImage 200 100 "frame"; mkImage 200 100 "frame"]
  /\ ([mkImage 200 100 "frame"; mkImage 200 100 "frame"] <> [] ->
      "crop" = "scale" \/ "crop" = "crop").
Proof.
  apply (frames_keep_their_number sampleEnv
           [mkImage 200 100 "frame"; mkImage 200 100 "frame"]
           [mkImage 10 10 "frame"; mkImage 10 10 "frame"] "crop" 10 10).
  reflexivity.
Defined.

(** X22: when the test the code makes before the size test holds, that
    is when [float32(srcHeight)/float32(srcWidth)] equals
    [float32(width)/float32(height)] (height by width of the source
    against width by height of the box), the method argument has no
    effect: the call does what it does for [scale], also for a method that
    is neither [scale] nor [crop]. *)
Theorem matching_ratio_means_scale (E : Env) (fs : Files) (media : Media)
    (width height : Z) (method : string) (animated forceGeneration : bool)
    (src : Image) :
  imaging_Open E (Location media) = inl src ->
  ratio_eq E (MaxY src) (MaxX src) width height = true ->
  GenerateThumbnail E fs media width height method animated forceGeneration
  = GenerateThumbnail E fs media width height "scale" animated
      forceGeneration.
Proof.
  intros Hopen Hratio. unfold GenerateThumbnail. cbv zeta.
  rewrite Hopen, Hratio. reflexivity.
Qed.

Lemma matching_ratio_means_scale_witness :
  GenerateThumbnail sampleEnv [] jpegMedia 50 100 "stretch" false false
  = GenerateThumbnail sampleEnv [] jpegMedia 50 100 "scale" false false.
Proof.
  apply (matching_ratio_means_scale sampleEnv [] jpegMedia 50 100 "stretch"
           false false (mkImage 200 100 "pixels"));
    reflexivity.
Defined.

(** X23: asking for an animated thumbnail of a media whose content type is
    not an animated type is the same as asking for a still one. *)
Theorem animated_request_on_still_media (E : Env) (fs : Files)
    (media : Media) (width height : Z) (method : string)
    (forceGeneration : bool) :
  ArrayContains (animatedTypes E) (types.ContentType media) = false ->
  GenerateThumbnail E fs media width height method true forceGeneration
  = GenerateThumbnail E fs media width height method false forceGeneration.
Proof.
  intros Htype. unfold GenerateThumbnail. cbv zeta. rewrite Htype.
  reflexivity.
Qed.

Lemma animated_request_on_still_media_witness :
  GenerateThumbnail sampleEnv [] jpegMedia 100 60 "crop" true false
  = GenerateThumbnail sampleEnv [] jpegMedia 100 60 "crop" false false.
Proof.
  apply (animated_request_on_still_media sampleEnv [] jpegMedia 100 60
           "crop" false).
  reflexivity.
Defined.

(** What a call that goes past the size test yields: an error with the
    files as they were, or the outcome of the one [PersistFile] call. *)
Lemma generated_outcome (E : Env) (fs : Files) (media : Media)
    (width height : Z) (method : string) (animated forceGeneration : bool)
    (src : Image) :
  imaging_Open E (Location media) = inl src ->
  ((MaxX src <=? width) && (MaxY src <=? height)
   && negb forceGeneration) = false ->
  (exists err,
     GenerateThumbnail E fs media width height method animated
       forceGeneration = ((None, Some err), fs))
  \/ exists data r fs',
       PersistFile E fs data = (r, fs')
       /\ match r with
          | inr err =>
              GenerateThumbnail E fs media width height method animated
                forceGeneration = ((None, Some err), fs')
          | inl location =>
              match FileSize E fs' location with
              | inr err =>
                  GenerateThumbnail E fs media width height method animated
                    forceGeneration = ((None, Some err), fs')
              | inl fileSize =>
                  exists contentType anim,
                    GenerateThumbnail E fs media width height method animated
                      forceGeneration
                    = ((Some (mkThumb contentType location fileSize anim),
                        None), fs')
              end
          end.
Proof.
  intros Hopen Hgen. unfold GenerateThumbnail. cbv zeta.
  rewrite Hopen, Hgen.
  match goal with
  | |- context [let '(_, _) := ?enc in _] => destruct enc as [ct [data|err]]
  end; [|left; now exists err].
  right. destruct (PersistFile E fs data) as [r fs'] eqn:Hp.
  exists data, r, fs'. split; [exact Hp|].
  destruct r as [loc|err]; [|reflexivity].
  destruct (FileSize E fs' loc); [eauto | reflexivity].
Qed.

(** X24: a record that is not the pass-through record names the file that
    the one [PersistFile] call of the function just wrote, and its size is
    the size read back from that file. *)
Theorem generated_record_is_persisted (E : Env) (fs fs' : Files)
    (media : Media) (width height : Z) (method : string)
    (animated forceGeneration : bool) (src : Image)
    (thumb : generatedThumbnail) :
  imaging_Open E (Location media) = inl src ->
  ((MaxX src <=? width) && (MaxY src <=? height)
   && negb forceGeneration) = false ->
  GenerateThumbnail E fs media width height method animated forceGeneration
  = ((Some thumb, None), fs') ->
  exists data,
    PersistFile E fs data = (inl (DiskLocation thumb), fs')
    /\ FileSize E fs' (DiskLocation thumb) = inl (SizeBytes thumb).
Proof.
  intros Hopen Hgen Hcall.
  destruct (generated_outcome E fs media width height method animated
              forceGeneration src Hopen Hgen)
    as [[err Herr] | (data & r & fs1 & Hp & Hr)].
  - rewrite Herr in Hcall. discriminate.
  - destruct r as [loc|err]; [|rewrite Hr in Hcall; discriminate].
    destruct (FileSize E fs1 loc) as [size|err] eqn:Hsize;
      [|rewrite Hr in Hcall; discriminate].
    destruct Hr as (ct & anim & Hr). rewrite Hr in Hcall.
    injection Hcall as <- <-. exists data. cbn. now rewrite Hsize.
Qed.

Lemma generated_record_is_persisted_witness :
  exists data,
    PersistFile sampleEnv [] data
    = (inl (DiskLocation (mkThumb "image/gif" "/media/0" 3 true)),
       [("/media/0", "gif")])
    /\ FileSize sampleEnv [("/media/0", "gif")]
         (DiskLocation (mkThumb "image/gif" "/media/0" 3 true))
       = inl (SizeBytes (mkThumb "image/gif" "/media/0" 3 true)).
Proof.
  apply (generated_record_is_persisted sampleEnv [] [("/media/0", "gif")]
           gifMedia 100 50 "crop" true false (mkImage 200 100 "pixels"));
    reflexivity.
Defined.

(** X25: a call writes at most one file: the files after it are the files
    before it, or the files left by one [PersistFile] call on them. *)
Theorem at_most_one_file_written (E : Env) (fs : Files) (media : Media)
    (width height : Z) (method : string) (animated forceGeneration : bool) :
  snd (GenerateThumbnail E fs media width height method animated
         forceGeneration) = fs
  \/ exists data,
       snd (GenerateThumbnail E fs media width height method animated
              forceGeneration) = snd (PersistFile E fs data).
Proof.
  destruct (imaging_Open E (Location media)) as [src|e] eqn:Hopen.
  2:{ left. unfold GenerateThumbnail. now rewrite Hopen. }
  destruct ((MaxX src <=? width) && (MaxY src <=? height)
            && negb forceGeneration) eqn:Hgen.
  { left. unfold GenerateThumbnail. cbv zeta. now rewrite Hopen, Hgen. }
  destruct (generated_outcome E fs media width height method animated
              forceGeneration src Hopen Hgen)
    as [[err Herr] | (data & r & fs1 & Hp & Hr)].
  - left. now rewrite Herr.
  - right. exists data. rewrite Hp. cbn [snd].
    destruct r as [loc|err]; [|now rewrite Hr].
    destruct (FileSize E fs1 loc); [|now rewrite Hr].
    destruct Hr as (ct & anim & ->). reflexivity.
Qed.

(** X26: whichever path encoded the thumbnail, animated or still: when
    the bytes of the encoding stage were written by [PersistFile] but the
    size of the file cannot be read, the call returns the error of
    [FileSize] and no record, and the file stays among the persisted
    files. *)
Theorem unreadable_size_leaves_file (E : Env) (fs fs' : Files)
    (media : Media) (width height : Z) (method : string)
    (animated forceGeneration : bool) (src : Image) (data location : string)
    (err : error) :
  imaging_Open E (Location media) = inl src ->
  ((MaxX src <=? width) && (MaxY src <=? height)
   && negb forceGeneration) = false ->
  snd (encodeStage E media src
         (if ratio_eq E (MaxY src) (MaxX src) width height
          then "scale" else method)
         (if (MaxX src <=? width) && (MaxY src <=? height)
          then MaxX src else width)
         (if (MaxX src <=? width) && (MaxY src <=? height)
          then MaxY src else height)
         (normalised E media animated)) = inl data ->
  PersistFile E fs data = (inl location, fs') ->
  FileSize E fs' location = inr err ->
  GenerateThumbnail E fs media width height method animated forceGeneration
  = ((None, Some err), fs').
Proof.
  intros Hopen Hgen Henc Hp Hsize.
  unfold encodeStage in Henc. unfold GenerateThumbnail. cbv zeta.
  rewrite !ThumbnailerFacts.normalise_flag, Hopen, Hgen.
  destruct (normalised E media animated
            && ArrayContains (animatedTypes E) (types.ContentType media));
    cbn [snd] in Henc; rewrite Henc, Hp, Hsize; reflexivity.
Qed.

Lemma unreadable_size_leaves_file_witness :
  GenerateThumbnail noStatEnv [] gifMedia 100 60 "crop" true false
  = ((None, Some "stat: permission denied"), [("/media/0", "gif")]).
Proof.
  apply (unreadable_size_leaves_file noStatEnv [] [("/media/0", "gif")]
           gifMedia 100 60 "crop" true false (mkImage 200 100 "pixels")
           "gif" "/media/0" "stat: permission denied");
    reflexivity.
Defined.

(** The same on the still path, and when the test on the ratios turns the
    method into [scale]. *)
Example unreadable_size_still_paths :
  GenerateThumbnail noStatEnv [] jpegMedia 100 60 "crop" true false
  = ((None, Some "stat: permission denied"), [("/media/0", "png:pixels")])
  /\ GenerateThumbnail noStatEnv [] jpegMedia 50 100 "stretch" false false
     = ((None, Some "stat: permission denied"), [("/media/0", "png:pixels")]).
Proof. split; reflexivity. Qed.

(** X27: for a still thumbnail that has to be generated, when the test the
    code makes on the ratios fails, that is when
    [float32(srcHeight)/float32(srcWidth)] differs from
    [float32(width)/float32(height)], a method other than [scale] and
    [crop] ends the call with the error naming it, before anything is
    encoded or written. *)
Theorem unknown_method_is_refused (E : Env) (fs : Files) (media : Media)
    (width height : Z) (method : string) (animated forceGeneration : bool)
    (src : Image) :
  imaging_Open E (Location media) = inl src ->
  ((MaxX src <=? width) && (MaxY src <=? height)
   && negb forceGeneration) = false ->
  ratio_eq E (MaxY src) (MaxX src) width height = false ->
  normalised E media animated = false ->
  method <> "scale" -> method <> "crop" ->
  GenerateThumbnail E fs media width height method animated forceGeneration
  = ((None, Some ("unrecognized method: " ++ method)), fs).
Proof.
  intros Hopen Hgen Hratio Hanim Hs Hc.
  unfold GenerateThumbnail. cbv zeta.
  rewrite !ThumbnailerFacts.normalise_flag, Hopen, Hgen, Hratio, Hanim.
  cbn [andb]. unfold thumbnailFrame.
  destruct (String.eqb_spec method "scale"); [contradiction|].
  destruct (String.eqb_spec method "crop"); [contradiction|].
  reflexivity.
Qed.

Lemma unknown_method_is_refused_witness :
  GenerateThumbnail sampleEnv [] jpegMedia 100 60 "stretch" true false
  = ((None, Some ("unrecognized method: " ++ "stretch")), []).
Proof.
  apply (unknown_method_is_refused sampleEnv [] jpegMedia 100 60 "stretch"
           true false (mkImage 200 100 "pixels"));
    try reflexivity; discriminate.
Defined.

(** X28: with the force flag a source that fits within the box asked for
    is not enlarged: the call does what it does when the box asked for is
    the source's own size, provided the aspect-ratio test gives the same
    for both boxes. *)
Theorem forced_generation_keeps_size (E : Env) (fs : Files) (media : Media)
    (width height : Z) (method : string) (animated : bool) (src : Image) :
  imaging_Open E (Location media) = inl src ->
  MaxX src <= width -> MaxY src <= height ->
  ratio_eq E (MaxY src) (MaxX src) width height
  = ratio_eq E (MaxY src) (MaxX src) (MaxX src) (MaxY src) ->
  GenerateThumbnail E fs media width height method animated true
  = GenerateThumbnail E fs media (MaxX src) (MaxY src) method animated true.
Proof.
  intros Hopen Hw Hh Hratio. unfold GenerateThumbnail. cbv zeta.
  rewrite Hopen, Hratio.
  destruct (Z.leb_spec (MaxX src) width); [|lia].
  destruct (Z.leb_spec (MaxY src) height); [|lia].
  rewrite !Z.leb_refl. reflexivity.
Qed.

Lemma forced_generation_keeps_size_witness :
  GenerateThumbnail sampleEnv [] jpegMedia 400 400 "crop" false true
  = GenerateThumbnail sampleEnv [] jpegMedia 200 100 "crop" false true.
Proof.
  apply (forced_generation_keeps_size sampleEnv [] jpegMedia 400 400 "crop"
           false (mkImage 200 100 "pixels")).
  - reflexivity.
  - simpl. lia.
  - simpl. lia.
  - reflexivity.
Defined.

End ThumbnailerSteps.
